(** * CitySpark: personalization and ranking core

    A shallow embedding of the computations of
      - [core/ai_learning/engine.py]     (class CitySparkLearningEngine),
      - [assets/urban_art/generator.py]  (class UrbanArtGenerator),
      - [core/analytics/engine.py]       (class AnalyticsEngine),
      - [integration/omniscient_hub/connector.py] (class OmniscientHubConnector).

    Conventions of the embedding.
      - Python numbers are rationals [Q] (counters are [Z]); all comparisons
        used by the code are order comparisons of such numbers.  The
        popularity score, whose rounding decides the order of a ranking, is
        computed in float arithmetic ([Py.round64]); the other quantities
        are exact.
      - A Python [dict] used as a store is an association list in insertion
        order, the order [dict.values()] iterates in.
      - [raise ValueError(...)] is the [Raise] constructor of [result].
      - Every [datetime.now()] read is an explicit argument. *)

From Stdlib Require Import List String Ascii Bool ZArith QArith Lia Lqa.
From Stdlib Require Import DecimalString.
From Stdlib Require Import Permutation Sorted.
Import ListNotations.

Local Open Scope string_scope.
Local Open Scope Q_scope.

(* ================================================================= *)
(** ** Python built-ins used by the engines *)

Module Py.

(** Outcome of a call that may raise. *)
Inductive result (A : Type) : Type :=
| Ret (a : A)
| Raise (exc : string).
Arguments Ret {A} a.
Arguments Raise {A} exc.

Definition bind {A B} (m : result A) (k : A -> result B) : result B :=
  match m with
  | Ret a => k a
  | Raise e => Raise e
  end.

(** Strict order on numbers, as a boolean. *)
Definition Qltb (a b : Q) : bool := negb (Qle_bool b a).

(** [min(a, b)]: the first argument unless the second is strictly smaller. *)
Definition min (a b : Q) : Q := if Qltb b a then b else a.

(** [max(a, b)]: the first argument unless the second is strictly larger. *)
Definition max (a b : Q) : Q := if Qltb a b then b else a.

(** [d.get(key, default)] on an optional entry. *)
Definition get {A} (entry : option A) (default : A) : A :=
  match entry with
  | Some v => v
  | None => default
  end.

(** [key in d] / [d[key]] on an insertion-ordered dictionary. *)
Fixpoint lookup {V} (k : string) (d : list (string * V)) : option V :=
  match d with
  | [] => None
  | (k', v) :: rest => if String.eqb k k' then Some v else lookup k rest
  end.

(** [d[key] = v]: an existing key keeps its position, a new key goes last. *)
Fixpoint assign {V} (k : string) (v : V) (d : list (string * V))
  : list (string * V) :=
  match d with
  | [] => [(k, v)]
  | (k', v') :: rest =>
      if String.eqb k k' then (k', v) :: rest else (k', v') :: assign k v rest
  end.

(** [list(d.values())]. *)
Definition values {V} (d : list (string * V)) : list V := map snd d.

(** [l[:n]] for an arbitrary integer [n]: a negative bound counts from
    the end of the list. *)
Definition slice_to {A} (n : Z) (l : list A) : list A :=
  if (0 <=? n)%Z then firstn (Z.to_nat n) l
  else firstn (Z.to_nat (Z.of_nat (List.length l) + n)) l.

(** [l[-n:]] for a positive literal [n]. *)
Definition slice_last {A} (n : nat) (l : list A) : list A :=
  skipn (List.length l - n)%nat l.

(** [sub in s] on strings. *)
Fixpoint str_in (sub s : string) : bool :=
  if String.prefix sub s then true
  else match s with
       | EmptyString => false
       | String _ rest => str_in sub rest
       end.

(** [sum(l)] on numbers. *)
Definition sum (l : list Q) : Q := fold_left Qplus l 0.

Section StableSort.
Context {A : Type}.
(** [before a b]: [a] has to be placed strictly ahead of [b]. *)
Variable before : A -> A -> bool.

(** [x] is older than every element of the (already sorted) tail: it
    overtakes nothing it ties with. *)
Fixpoint insert (x : A) (l : list A) : list A :=
  match l with
  | [] => [x]
  | y :: rest => if before y x then y :: insert x rest else x :: y :: rest
  end.

(** [list.sort]: a stable sort. *)
Fixpoint stable_sort (l : list A) : list A :=
  match l with
  | [] => []
  | x :: rest => insert x (stable_sort rest)
  end.
End StableSort.

(** [l.sort(key=key, reverse=True)]: descending, equal keys keep their
    original relative order. *)
Definition sort_desc {A} (key : A -> Q) (l : list A) : list A :=
  stable_sort (fun a b => Qltb (key b) (key a)) l.

(** [a] may stand ahead of [b] in a list that descends by [key]. *)
Definition ge_key {A} (key : A -> Q) (a b : A) : Prop := key b <= key a.

(** The items of [l] whose key equals [r], in the order they have in [l]. *)
Definition with_key {A} (key : A -> Q) (r : Q) (l : list A) : list A :=
  filter (fun a => Qeq_bool (key a) r) l.

(** [l.sort(key=key)] with integer keys: ascending, stable. *)
Definition sort_asc {A} (key : A -> Z) (l : list A) : list A :=
  stable_sort (fun a b => (key a <? key b)%Z) l.

(** [int(x)]: truncation toward zero. *)
Definition int_of (x : Q) : Z := Z.quot (Qnum x) (Zpos (Qden x)).

(** [l.sort(key=key, reverse=True)] with integer keys: descending, stable. *)
Definition sort_desc_int {A} (key : A -> Z) (l : list A) : list A :=
  stable_sort (fun a b => (key b <? key a)%Z) l.

(** *** Float arithmetic

    A finite [float] is kept as the rational it denotes, so that comparing
    floats is comparing these rationals.  Every operation returns the exact
    result rounded to the nearest number with 53 significant bits, ties to
    the even significand (IEEE 754 binary64, round-to-nearest-even).  The
    exponent range is not modelled: the values met here lie far inside
    it. *)

(** [n / d] rounded to the nearest integer, ties to even ([0 <= n], [0 < d]). *)
Definition round_half_even (n d : Z) : Z :=
  let q := (n / d)%Z in
  let r := (n mod d)%Z in
  match (2 * r ?= d)%Z with
  | Lt => q
  | Gt => (q + 1)%Z
  | Eq => if Z.even q then q else (q + 1)%Z
  end.

(** The float nearest to [x]: [m * 2^e] with [2^52 <= m <= 2^53]. *)
Definition round64 (x : Q) : Q :=
  let n := Z.abs (Qnum x) in
  let d := Zpos (Qden x) in
  if (n =? 0)%Z then 0
  else
    let e0 := (Z.log2 n - Z.log2 d - 52)%Z in
    let scaled e := ((n * 2 ^ Z.max 0 (- e))%Z, (d * 2 ^ Z.max 0 e)%Z) in
    let e :=
      if (fst (scaled e0) <? 2 ^ 52 * snd (scaled e0))%Z
      then (e0 - 1)%Z else e0 in
    let m := round_half_even (fst (scaled e)) (snd (scaled e)) in
    let signed := (Z.sgn (Qnum x) * m)%Z in
    Qred (if (0 <=? e)%Z then inject_Z (signed * 2 ^ e)
          else signed # Z.to_pos (2 ^ (- e))).

(** [float(n)], the conversion an [int] undergoes in mixed arithmetic. *)
Definition float_of_int (n : Z) : Q := round64 (inject_Z n).

(** A float literal such as [0.1]. *)
Definition float_literal (x : Q) : Q := round64 x.

(** [a * b] and [a + b] on floats. *)
Definition fmul (a b : Q) : Q := round64 (a * b).
Definition fadd (a b : Q) : Q := round64 (a + b).

End Py.

Import Py.

(* ================================================================= *)
(** ** core/ai_learning/engine.py *)

Module Learning.

Definition datetime := Z.

(** One entry of [progress_history], the dictionary [analysis]. *)
Record Analysis := mkAnalysis {
  a_student_id : string;
  performance_score : Q;
  efficiency : Q;
  mastery_level : Q;
  completion_rate : Q;
  recommendations : list string;
  next_difficulty : string;
  analyzed_at : datetime
}.

Record Profile := mkProfile {
  student_id : string;
  learning_style : string;
  skill_level : string;
  interests : list string;
  goals : list string;
  strengths : list string;
  weaknesses : list string;
  progress_history : list Analysis;
  created_at : datetime;
  updated_at : datetime
}.

(** [self.student_profiles]. *)
Definition Profiles := list (string * Profile).

(** The keys [analyze_performance] reads from [performance_data]; an
    absent key is [None]. *)
Record PerformanceData := mkPerformanceData {
  pd_score : option Q;
  pd_time_spent : option Q;
  pd_difficulty : option string;
  pd_completion_rate : option Q
}.

(** A recommendation dictionary; the key ["difficulty"] is absent from the
    activity and peer entries. *)
Record Recommendation := mkRecommendation {
  r_type : string;
  title : string;
  description : string;
  relevance_score : Q;
  difficulty : option string
}.

Definition difficulty_multipliers : list (string * Q) :=
  [("beginner", 1.0); ("medium", 1.2); ("advanced", 1.5); ("expert", 2.0)].

Definition _calculate_mastery_level (score : Q) (difficulty : string) : Q :=
  let multiplier := get (lookup difficulty difficulty_multipliers) 1.0 in
  Py.min ((score * multiplier) / 100) 1.0.

Definition _generate_recommendations (profile : Profile)
           (performance : PerformanceData) : list string :=
  let score := get (pd_score performance) 0 in
  if Qltb score 60 then
    ["Review fundamental concepts"; "Schedule additional practice sessions"]
  else if Qltb score 80 then
    ["Focus on challenging topics"; "Try different learning approaches"]
  else
    ["Advance to next difficulty level"; "Help peers with similar topics"].

Definition _suggest_next_difficulty (mastery_level : Q) : string :=
  if Qltb mastery_level 0.3 then "beginner"
  else if Qltb mastery_level 0.6 then "medium"
  else if Qltb mastery_level 0.8 then "advanced"
  else "expert".

Definition not_found (sid : string) : string :=
  "Student " ++ sid ++ " not found".

(** [t_analyzed] and [t_updated] are the two clock reads of the call. *)
Definition analyze_performance (profiles : Profiles) (t_analyzed t_updated : datetime)
           (sid : string) (performance_data : PerformanceData)
  : result (Profiles * Analysis) :=
  match lookup sid profiles with
  | None => Raise (not_found sid)
  | Some profile =>
      let score := get (pd_score performance_data) 0 in
      let time_spent := get (pd_time_spent performance_data) 0 in
      let difficulty := get (pd_difficulty performance_data) "medium" in
      let completion_rate := get (pd_completion_rate performance_data) 1.0 in
      let efficiency :=
        if Qltb 0 time_spent then score / Py.max time_spent 1 else 0 in
      let mastery_level := _calculate_mastery_level score difficulty in
      let analysis :=
        {| a_student_id := sid;
           performance_score := score;
           efficiency := efficiency;
           mastery_level := mastery_level;
           completion_rate := completion_rate;
           recommendations := _generate_recommendations profile performance_data;
           next_difficulty := _suggest_next_difficulty mastery_level;
           analyzed_at := t_analyzed |} in
      let profile' :=
        {| student_id := profile.(student_id);
           learning_style := profile.(learning_style);
           skill_level := profile.(skill_level);
           interests := profile.(interests);
           goals := profile.(goals);
           strengths := profile.(strengths);
           weaknesses := profile.(weaknesses);
           progress_history := (profile.(progress_history) ++ [analysis])%list;
           created_at := profile.(created_at);
           updated_at := t_updated |} in
      Ret (assign sid profile' profiles, analysis)
  end.

Definition interest_entry (interest : string) : Recommendation :=
  {| r_type := "content";
     title := "Advanced " ++ interest;
     description := "Deep dive into " ++ interest ++ " based on your interests";
     relevance_score := 0.9;
     difficulty := Some "medium" |}.

Definition weakness_entry (weakness : string) : Recommendation :=
  {| r_type := "content";
     title := "Master " ++ weakness;
     description := "Strengthen your " ++ weakness ++ " skills";
     relevance_score := 0.85;
     difficulty := Some "beginner" |}.

(** The optional [context] dictionary; it is accepted and never read. *)
Definition ContextDict := list (string * string).

Definition _recommend_content (profile : Profile) (context : option ContextDict)
  : list Recommendation :=
  (map interest_entry profile.(interests)
   ++ map weakness_entry profile.(weaknesses))%list.

Definition _recommend_activities (profile : Profile) (context : option ContextDict)
  : list Recommendation :=
  [ {| r_type := "activity";
       title := "Collaborative Project";
       description := "Work with peers on a real-world project";
       relevance_score := 0.8;
       difficulty := None |};
    {| r_type := "activity";
       title := "Quiz Challenge";
       description := "Test your knowledge with interactive quizzes";
       relevance_score := 0.75;
       difficulty := None |} ].

Definition _recommend_peer_learning (profile : Profile) : list Recommendation :=
  [ {| r_type := "peer";
       title := "Study Group";
       description := "Join a study group with similar goals";
       relevance_score := 0.7;
       difficulty := None |} ].

(** The list built by the three [extend] calls, before sorting. *)
Definition merged (profile : Profile) (context : option ContextDict)
  : list Recommendation :=
  (_recommend_content profile context
   ++ _recommend_activities profile context
   ++ _recommend_peer_learning profile)%list.

(** A list of recommendations in descending relevance order. *)
Definition descending : list Recommendation -> Prop :=
  StronglySorted (ge_key relevance_score).

Definition get_recommendations (profiles : Profiles) (sid : string)
           (context : option ContextDict) : result (list Recommendation) :=
  match lookup sid profiles with
  | None => Raise (not_found sid)
  | Some profile =>
      let recommendations := sort_desc relevance_score (merged profile context) in
      Ret (firstn 10 recommendations)
  end.

(** *** Profiles *)

(** The keys [create_student_profile] reads from [profile_data]; an absent
    key is [None]. *)
Record ProfileData := mkProfileData {
  pf_learning_style : option string;
  pf_skill_level : option string;
  pf_interests : option (list string);
  pf_goals : option (list string);
  pf_strengths : option (list string);
  pf_weaknesses : option (list string)
}.

(** [t_created] and [t_updated] are the two clock reads of the call. *)
Definition create_student_profile (profiles : Profiles)
           (t_created t_updated : datetime) (sid : string)
           (profile_data : ProfileData) : Profiles * Profile :=
  let profile :=
    {| student_id := sid;
       learning_style := get profile_data.(pf_learning_style) "visual";
       skill_level := get profile_data.(pf_skill_level) "beginner";
       interests := get profile_data.(pf_interests) [];
       goals := get profile_data.(pf_goals) [];
       strengths := get profile_data.(pf_strengths) [];
       weaknesses := get profile_data.(pf_weaknesses) [];
       progress_history := [];
       created_at := t_created;
       updated_at := t_updated |} in
  (assign sid profile profiles, profile).

(** *** Learning paths *)

Record LearningModule := mkLearningModule {
  m_name : string;
  m_type : string;
  m_duration : Z
}.

Record Activity := mkActivity {
  act_type : string;
  act_name : string
}.

Record AssessmentPoint := mkAssessmentPoint {
  ap_type : string;
  ap_module : Z;
  ap_weight : Q
}.

Record LearningPath := mkLearningPath {
  lp_student_id : string;
  lp_subject : string;
  lp_goals : list string;
  modules : list LearningModule;
  estimated_duration : Z;
  difficulty_progression : list string;
  learning_activities : list Activity;
  assessment_points : list AssessmentPoint;
  lp_created_at : datetime
}.

(** [self.learning_paths], keyed by [f"{student_id}_{subject}"]. *)
Definition Paths := list (string * LearningPath).

(** [base_modules] is built and never added to [modules]: only the entries
    chosen by the learning style are returned. *)
Definition _create_learning_modules (profile : Profile) (subject : string)
           (goals : list string) : list LearningModule :=
  let modules : list LearningModule := [] in
  let base_modules :=
    [ mkLearningModule ("Introduction to " ++ subject) "video" 30;
      mkLearningModule (subject ++ " Fundamentals") "interactive" 45;
      mkLearningModule ("Practice Exercises - " ++ subject) "exercise" 60;
      mkLearningModule ("Advanced " ++ subject ++ " Concepts") "reading" 40;
      mkLearningModule (subject ++ " Project") "project" 120 ] in
  if String.eqb profile.(learning_style) "visual" then
    (modules
     ++ [ mkLearningModule ("Visual Guide to " ++ subject)%string "infographic" 20;
          mkLearningModule (subject ++ " Diagrams & Charts")%string "visual" 25 ])%list
  else if String.eqb profile.(learning_style) "auditory" then
    (modules
     ++ [ mkLearningModule (subject ++ " Audio Lecture")%string "audio" 35;
          mkLearningModule (subject ++ " Podcast Series")%string "podcast" 45 ])%list
  else modules.

Definition skill_multipliers : list (string * Q) :=
  [("beginner", 1.5); ("intermediate", 1.0); ("advanced", 0.8); ("expert", 0.6)].

Definition _estimate_duration (profile : Profile) (subject : string) : Z :=
  let base_duration := 40 in
  let multiplier := get (lookup profile.(skill_level) skill_multipliers) 1.0 in
  int_of (base_duration * multiplier).

Definition progressions : list (string * list string) :=
  [ ("beginner", ["beginner"; "beginner"; "medium"; "medium"]);
    ("intermediate", ["medium"; "medium"; "advanced"; "advanced"]);
    ("advanced", ["advanced"; "expert"; "expert"; "expert"]);
    ("expert", ["expert"; "expert"; "expert"; "expert"]) ].

Definition _create_difficulty_progression (profile : Profile) : list string :=
  get (lookup profile.(skill_level) progressions)
      ["beginner"; "beginner"; "medium"; "medium"].

Definition _suggest_activities (profile : Profile) (subject : string)
  : list Activity :=
  if String.eqb profile.(learning_style) "visual" then
    [ mkActivity "video" ("Visual " ++ subject ++ " Tutorial");
      mkActivity "infographic" (subject ++ " Mind Map") ]
  else if String.eqb profile.(learning_style) "auditory" then
    [ mkActivity "podcast" (subject ++ " Audio Lesson");
      mkActivity "discussion" (subject ++ " Study Group") ]
  else
    [ mkActivity "reading" (subject ++ " Textbook");
      mkActivity "exercise" (subject ++ " Practice Problems") ].

Definition _plan_assessments (subject : string) : list AssessmentPoint :=
  [ mkAssessmentPoint "quiz" 1 0.1;
    mkAssessmentPoint "assignment" 3 0.2;
    mkAssessmentPoint "project" 5 0.3;
    mkAssessmentPoint "final_exam" 5 0.4 ].

Definition path_key (sid subject : string) : string := sid ++ "_" ++ subject.

Definition generate_learning_path (profiles : Profiles) (paths : Paths)
           (now : datetime) (sid subject : string) (goals : list string)
  : result (Paths * LearningPath) :=
  match lookup sid profiles with
  | None => Raise (not_found sid)
  | Some profile =>
      let learning_path :=
        {| lp_student_id := sid;
           lp_subject := subject;
           lp_goals := goals;
           modules := _create_learning_modules profile subject goals;
           estimated_duration := _estimate_duration profile subject;
           difficulty_progression := _create_difficulty_progression profile;
           learning_activities := _suggest_activities profile subject;
           assessment_points := _plan_assessments subject;
           lp_created_at := now |} in
      Ret (assign (path_key sid subject) learning_path paths, learning_path)
  end.

(** *** Outcome prediction *)

(** The keys [predict_outcomes] reads from its [learning_path] argument. *)
Record PathDict := mkPathDict {
  pd_estimated_duration : option Q;
  pd_modules : option (list LearningModule)
}.

(** A stored learning path seen as that dictionary. *)
Definition path_dict (learning_path : LearningPath) : PathDict :=
  {| pd_estimated_duration := Some (inject_Z learning_path.(estimated_duration));
     pd_modules := Some learning_path.(modules) |}.

Record Prediction := mkPrediction {
  completion_probability : Q;
  expected_mastery : Q;
  estimated_time : Q;
  success_factors : list string;
  risk_factors : list string;
  improvement_suggestions : list string
}.

Definition _identify_success_factors (profile : Profile) (learning_path : PathDict)
  : list string :=
  let factors := [] in
  let factors :=
    if String.eqb profile.(learning_style) "" then factors
    else (factors ++ [("Learning style: " ++ profile.(learning_style))%string])%list in
  let factors :=
    if (2 <? List.length profile.(interests))%nat
    then (factors ++ ["Strong interest alignment"])%list else factors in
  let factors :=
    if (1 <? List.length profile.(goals))%nat
    then (factors ++ ["Clear learning goals"])%list else factors in
  factors.

Definition _identify_risk_factors (profile : Profile) (learning_path : PathDict)
  : list string :=
  let risks := [] in
  let risks :=
    if Qltb 60 (get learning_path.(pd_estimated_duration) 0)
    then (risks ++ ["Long learning duration may impact completion"])%list
    else risks in
  let risks :=
    if (3 <? List.length profile.(weaknesses))%nat
    then (risks ++ ["Multiple weakness areas may require extra support"])%list
    else risks in
  risks.

Definition _suggest_improvements (profile : Profile) (learning_path : PathDict)
  : list string :=
  [ "Set regular study schedules";
    "Use gamified learning approaches";
    "Seek peer collaboration opportunities" ].

(** [u_completion], [u_mastery] and [u_time] are the three
    [np.random.uniform] draws of the call, in the order they are made.  The
    feature vector the code extracts first is not used afterwards. *)
Definition predict_outcomes (profiles : Profiles) (u_completion u_mastery u_time : Q)
           (sid : string) (learning_path : PathDict) : result Prediction :=
  match lookup sid profiles with
  | None => Raise (not_found sid)
  | Some profile =>
      Ret {| completion_probability := u_completion;
             expected_mastery := u_mastery;
             estimated_time :=
               get learning_path.(pd_estimated_duration) 40 * u_time;
             success_factors := _identify_success_factors profile learning_path;
             risk_factors := _identify_risk_factors profile learning_path;
             improvement_suggestions := _suggest_improvements profile learning_path |}
  end.

End Learning.


(* ================================================================= *)
(** ** assets/urban_art/generator.py *)

Module Art.

Definition datetime := Z.

(** The dictionary built by [_generate_metadata]. *)
Record Metadata := mkMetadata {
  prompt_length : Z;
  m_style : string;
  generation_model : string;
  resolution : string;
  format : string;
  keywords : list string
}.

(** An art piece dictionary.  [generate_art] creates it without the keys
    ["updated_at"] and ["popularity_score"]; they are [None] until some
    operation writes them. *)
Record ArtPiece := mkArtPiece {
  id : string;
  prompt : string;
  style : string;
  user_id : option string;
  title : string;
  description : string;
  metadata : Metadata;
  image_url : string;
  thumbnail_url : string;
  tags : list string;
  created_at : datetime;
  likes : Z;
  views : Z;
  featured : bool;
  updated_at : option datetime;
  popularity_score : option Q
}.

(** [self.art_gallery]: the stored dictionaries, in insertion order.  The
    lists handed out by the engine hold these same dictionaries, so a write
    to an element of such a list is a write to the store. *)
Definition Gallery := list (string * ArtPiece).

Definition set_likes (v : Z) (a : ArtPiece) : ArtPiece :=
  mkArtPiece a.(id) a.(prompt) a.(style) a.(user_id) a.(title) a.(description)
    a.(metadata) a.(image_url) a.(thumbnail_url) a.(tags) a.(created_at)
    v a.(views) a.(featured) a.(updated_at) a.(popularity_score).

Definition set_views (v : Z) (a : ArtPiece) : ArtPiece :=
  mkArtPiece a.(id) a.(prompt) a.(style) a.(user_id) a.(title) a.(description)
    a.(metadata) a.(image_url) a.(thumbnail_url) a.(tags) a.(created_at)
    a.(likes) v a.(featured) a.(updated_at) a.(popularity_score).

Definition set_featured (v : bool) (a : ArtPiece) : ArtPiece :=
  mkArtPiece a.(id) a.(prompt) a.(style) a.(user_id) a.(title) a.(description)
    a.(metadata) a.(image_url) a.(thumbnail_url) a.(tags) a.(created_at)
    a.(likes) a.(views) v a.(updated_at) a.(popularity_score).

Definition set_updated_at (v : datetime) (a : ArtPiece) : ArtPiece :=
  mkArtPiece a.(id) a.(prompt) a.(style) a.(user_id) a.(title) a.(description)
    a.(metadata) a.(image_url) a.(thumbnail_url) a.(tags) a.(created_at)
    a.(likes) a.(views) a.(featured) (Some v) a.(popularity_score).

Definition set_popularity_score (v : Q) (a : ArtPiece) : ArtPiece :=
  mkArtPiece a.(id) a.(prompt) a.(style) a.(user_id) a.(title) a.(description)
    a.(metadata) a.(image_url) a.(thumbnail_url) a.(tags) a.(created_at)
    a.(likes) a.(views) a.(featured) a.(updated_at) (Some v).

(** [b] differs from [a] at most in [views]. *)
Definition same_but_views (a b : ArtPiece) : Prop :=
  b.(id) = a.(id) /\ b.(prompt) = a.(prompt) /\ b.(style) = a.(style) /\
  b.(user_id) = a.(user_id) /\ b.(title) = a.(title) /\
  b.(description) = a.(description) /\ b.(metadata) = a.(metadata) /\
  b.(image_url) = a.(image_url) /\ b.(thumbnail_url) = a.(thumbnail_url) /\
  b.(tags) = a.(tags) /\ b.(created_at) = a.(created_at) /\
  b.(likes) = a.(likes) /\ b.(featured) = a.(featured) /\
  b.(updated_at) = a.(updated_at) /\
  b.(popularity_score) = a.(popularity_score).

(** [b] differs from [a] at most in [popularity_score]. *)
Definition same_but_popularity_score (a b : ArtPiece) : Prop :=
  b.(id) = a.(id) /\ b.(prompt) = a.(prompt) /\ b.(style) = a.(style) /\
  b.(user_id) = a.(user_id) /\ b.(title) = a.(title) /\
  b.(description) = a.(description) /\ b.(metadata) = a.(metadata) /\
  b.(image_url) = a.(image_url) /\ b.(thumbnail_url) = a.(thumbnail_url) /\
  b.(tags) = a.(tags) /\ b.(created_at) = a.(created_at) /\
  b.(likes) = a.(likes) /\ b.(views) = a.(views) /\
  b.(featured) = a.(featured) /\ b.(updated_at) = a.(updated_at).

Definition not_found (art_id : string) : string :=
  "Art piece " ++ art_id ++ " not found".

Definition get_art_piece (gallery : Gallery) (art_id : string) : option ArtPiece :=
  lookup art_id gallery.

Definition like_art (gallery : Gallery) (now : datetime) (art_id uid : string)
  : result (Gallery * ArtPiece) :=
  match lookup art_id gallery with
  | None => Raise (not_found art_id)
  | Some art_piece =>
      let art_piece := set_likes (art_piece.(likes) + 1) art_piece in
      let art_piece := set_updated_at now art_piece in
      Ret (assign art_id art_piece gallery, art_piece)
  end.

Definition view_art (gallery : Gallery) (art_id uid : string)
  : result (Gallery * ArtPiece) :=
  match lookup art_id gallery with
  | None => Raise (not_found art_id)
  | Some art_piece =>
      let art_piece := set_views (art_piece.(views) + 1) art_piece in
      Ret (assign art_id art_piece gallery, art_piece)
  end.

Definition feature_art (gallery : Gallery) (now : datetime) (art_id : string)
           (flag : bool) : Gallery * option ArtPiece :=
  match lookup art_id gallery with
  | None => (gallery, None)
  | Some art_piece =>
      let art_piece := set_featured flag art_piece in
      let art_piece := set_updated_at now art_piece in
      (assign art_id art_piece gallery, Some art_piece)
  end.

(** [(art["likes"] * 2) + (art["views"] * 0.1)]: the product of integers is
    exact, [views * 0.1] is a float product and the sum a float sum. *)
Definition popularity (art : ArtPiece) : Q :=
  fadd (float_of_int (art.(likes) * 2))
       (fmul (float_of_int art.(views)) (float_literal 0.1)).

(** The loop [for art in gallery: art["popularity_score"] = ...]. *)
Definition score_piece (art : ArtPiece) : ArtPiece :=
  set_popularity_score (popularity art) art.

(** [x["popularity_score"]], read only after the loop has written it. *)
Definition popularity_key (art : ArtPiece) : Q :=
  get art.(popularity_score) 0.

(** Returns the store as the call leaves it and the returned list. *)
Definition get_popular_art (gallery : Gallery) (limit : Z)
  : Gallery * list ArtPiece :=
  let gallery' := map (fun kv => (fst kv, score_piece (snd kv))) gallery in
  let pieces := values gallery' in
  let pieces := sort_desc popularity_key pieces in
  (gallery', slice_to limit pieces).

(** *** Gallery listing *)

(** The keys [get_gallery] looks for in [filters]; an absent key is [None].
    The value under ["user_id"] is compared with the piece's own optional
    user id. *)
Record Filters := mkFilters {
  f_style : option string;
  f_user_id : option (option string);
  f_tags : option (list string);
  f_featured : option bool
}.

Definition option_eqb (a b : option string) : bool :=
  match a, b with
  | Some x, Some y => String.eqb x y
  | None, None => true
  | _, _ => false
  end.

(** [tag in art["tags"]]. *)
Definition has_tag (tag : string) (art : ArtPiece) : bool :=
  existsb (String.eqb tag) art.(tags).

Definition apply_filters (filters : Filters) (pieces : list ArtPiece)
  : list ArtPiece :=
  let pieces :=
    match filters.(f_style) with
    | Some wanted => filter (fun art => String.eqb art.(style) wanted) pieces
    | None => pieces
    end in
  let pieces :=
    match filters.(f_user_id) with
    | Some wanted => filter (fun art => option_eqb art.(user_id) wanted) pieces
    | None => pieces
    end in
  let pieces :=
    match filters.(f_tags) with
    | Some wanted =>
        fold_left (fun kept tag => filter (has_tag tag) kept) wanted pieces
    | None => pieces
    end in
  let pieces :=
    match filters.(f_featured) with
    | Some wanted => filter (fun art => Bool.eqb art.(featured) wanted) pieces
    | None => pieces
    end in
  pieces.

(** [filters] is [None] for a call without filters; an empty dictionary is
    skipped by [if filters:] and selects the same pieces. *)
Definition get_gallery (gallery : Gallery) (filters : option Filters)
  : list ArtPiece :=
  let pieces := values gallery in
  let pieces :=
    match filters with
    | Some f => apply_filters f pieces
    | None => pieces
    end in
  sort_desc_int created_at pieces.

(** *** Collections *)

Record Collection := mkCollection {
  c_id : string;
  c_name : string;
  c_description : string;
  art_ids : list string;
  c_user_id : string;
  c_created_at : datetime;
  c_updated_at : datetime;
  public : bool;
  c_likes : Z;
  c_views : Z
}.

(** [art_id in self.art_gallery]. *)
Definition stored (gallery : Gallery) (art_id : string) : bool :=
  match lookup art_id gallery with
  | Some _ => true
  | None => false
  end.

(** *** Generation *)

Record StylePreset := mkStylePreset {
  sp_name : string;
  sp_description : string;
  color_palette : list string;
  techniques : list string
}.

Definition _load_style_presets : list (string * StylePreset) :=
  [ ("modern",
     mkStylePreset "Modern Urban"
       "Contemporary urban art with clean lines and bold colors"
       ["#FF6B6B"; "#4ECDC4"; "#45B7D1"; "#96CEB4"; "#FFEAA7"]
       ["digital"; "mixed_media"; "collage"]);
    ("graffiti",
     mkStylePreset "Graffiti Style"
       "Classic street art with spray paint techniques"
       ["#FF0000"; "#FFD700"; "#00FF00"; "#FF00FF"; "#00FFFF"]
       ["spray_paint"; "stencil"; "freehand"]);
    ("abstract",
     mkStylePreset "Abstract Urban"
       "Abstract interpretation of urban landscapes"
       ["#2C3E50"; "#E74C3C"; "#F39C12"; "#27AE60"; "#8E44AD"]
       ["geometric"; "expressionist"; "minimalist"]);
    ("eco_art",
     mkStylePreset "Eco Urban Art"
       "Environmentally conscious urban art themes"
       ["#27AE60"; "#16A085"; "#2980B9"; "#8E44AD"; "#F39C12"]
       ["recycled_materials"; "natural_elements"; "sustainable"]) ].

Definition urban_keywords : list string :=
  ["city"; "urban"; "street"; "building"; "skyline"; "modern"; "contemporary"].

(** [any(word in text for word in words)], with [in] the substring test. *)
Definition any_in (words : list string) (text : string) : bool :=
  existsb (fun word => str_in word text) words.

Section Generator.

(** [datetime.strftime('%Y%m%d_%H%M%S')]. *)
Variable strftime : datetime -> string.
(** [str.split()], [str.lower()], [str.title()], [str.capitalize()], [len]. *)
Variable str_split : string -> list string.
Variable str_lower : string -> string.
Variable str_title : string -> string.
Variable str_capitalize : string -> string.
Variable str_len : string -> Z.
(** [list(set(l))]: the distinct elements of [l], in the order the set
    iterates them. *)
Variable list_set : list string -> list string.

Definition create_collection (gallery : Gallery) (file : option (list Collection))
           (t_id t_created t_updated : datetime)
           (name description0 : string) (ids : list string) (uid : string)
  : option (list Collection) * Collection :=
  let collection_id := "collection_" ++ strftime t_id in
  let valid_art_ids := filter (stored gallery) ids in
  let collection :=
    {| c_id := collection_id;
       c_name := name;
       c_description := description0;
       art_ids := valid_art_ids;
       c_user_id := uid;
       c_created_at := t_created;
       c_updated_at := t_updated;
       public := false;
       c_likes := 0;
       c_views := 0 |} in
  let collections := get file [] in
  (Some (collections ++ [collection])%list, collection).

Definition _generate_title (p_prompt p_style : string) : string :=
  let style_name :=
    match lookup p_style _load_style_presets with
    | Some style_info => style_info.(sp_name)
    | None => str_capitalize p_style
    end in
  let title_words := firstn 3 (str_split p_prompt) in
  let title0 := str_title (String.concat " " title_words) in
  title0 ++ " - " ++ style_name ++ " Style".

Definition _generate_description (p_prompt p_style : string) : string :=
  let style_desc :=
    match lookup p_style _load_style_presets with
    | Some style_info => style_info.(sp_description)
    | None => ""
    end in
  "AI-generated urban art inspired by: " ++ p_prompt ++ ". " ++ style_desc.

Definition _generate_tags (p_prompt p_style : string) : list string :=
  let tags0 := [p_style] in
  let prompt_words := str_split (str_lower p_prompt) in
  let tags0 :=
    (tags0 ++ filter (fun word => existsb (String.eqb word) urban_keywords)
                     prompt_words)%list in
  let tags0 :=
    if String.eqb p_style "graffiti"
    then (tags0 ++ ["street_art"; "spray_paint"; "wall_art"])%list
    else if String.eqb p_style "eco_art"
    then (tags0 ++ ["environment"; "sustainable"; "green"])%list
    else if String.eqb p_style "modern"
    then (tags0 ++ ["contemporary"; "minimalist"; "clean"])%list
    else tags0 in
  list_set tags0.

Definition _generate_metadata (p_prompt p_style : string) : Metadata :=
  {| prompt_length := str_len p_prompt;
     m_style := p_style;
     generation_model := "CitySpark-Art-v1.0";
     resolution := "1920x1080";
     format := "digital_art";
     keywords := _generate_tags p_prompt p_style |}.

(** [history] is [self.generation_history]; [t_id] and [t_created] are the
    two clock reads of the call. *)
Definition generate_art (gallery : Gallery) (history : list string)
           (t_id t_created : datetime) (p_prompt p_style : string)
           (p_user : option string)
  : Gallery * list string * ArtPiece :=
  let generation_id := "art_" ++ strftime t_id in
  let art_piece :=
    {| id := generation_id;
       prompt := p_prompt;
       style := p_style;
       user_id := p_user;
       title := _generate_title p_prompt p_style;
       description := _generate_description p_prompt p_style;
       metadata := _generate_metadata p_prompt p_style;
       image_url := "/static/generated_art/" ++ generation_id ++ ".jpg";
       thumbnail_url := "/static/generated_art/" ++ generation_id ++ "_thumb.jpg";
       tags := _generate_tags p_prompt p_style;
       created_at := t_created;
       likes := 0;
       views := 0;
       featured := false;
       updated_at := None;
       popularity_score := None |} in
  (assign generation_id art_piece gallery,
   (history ++ [generation_id])%list,
   art_piece).

Definition get_style_suggestions (p_prompt : string) : list string :=
  let prompt_lower := str_lower p_prompt in
  let suggestions := [] in
  let suggestions :=
    if any_in ["city"; "urban"; "street"] prompt_lower
    then (suggestions ++ ["street_art"; "graffiti"; "urban"])%list
    else suggestions in
  let suggestions :=
    if any_in ["modern"; "contemporary"; "abstract"] prompt_lower
    then (suggestions ++ ["modern"; "abstract"; "contemporary"])%list
    else suggestions in
  let suggestions :=
    if any_in ["nature"; "green"; "eco"] prompt_lower
    then (suggestions ++ ["eco_art"; "nature_inspired"; "sustainable"])%list
    else suggestions in
  let suggestions :=
    if any_in ["tech"; "digital"; "cyber"] prompt_lower
    then (suggestions ++ ["digital"; "cyberpunk"; "tech_art"])%list
    else suggestions in
  let suggestions :=
    match suggestions with
    | [] => ["modern"; "abstract"; "contemporary"]
    | _ :: _ => suggestions
    end in
  list_set suggestions.

End Generator.

End Art.

(* ================================================================= *)
(** ** core/analytics/engine.py *)

Module Analytics.

(** A timestamp of the log.  [track_event] stores [datetime.now().isoformat()];
    the text is kept as the instant it denotes, counted in microseconds, and
    the order of the texts is the order of the instants. *)
Definition datetime := Z.

Definition microseconds_per_day : Z := 86400000000.
Definition microseconds_per_hour : Z := 3600000000.

(** [timedelta(days=days)]. *)
Definition timedelta_days (days : Z) : Z := days * microseconds_per_day.

(** [datetime.fromisoformat(ts).hour]. *)
Definition hour (ts : datetime) : Z := (ts / microseconds_per_hour) mod 24.

(** An event dictionary; [data] holds the numeric entries of the payload. *)
Record Event := mkEvent {
  id : string;
  type : string;
  user_id : string;
  timestamp : datetime;
  data : list (string * Q)
}.

Record Metrics := mkMetrics {
  m_user_id : string;
  period_days : Z;
  total_events : nat;
  learning_time_minutes : Q;
  completion_rate : Q;
  average_score : Q;
  engagement_score : Z
}.

Record Insight := mkInsight {
  i_type : string;
  i_title : string;
  i_description : string;
  i_recommendation : string
}.

Definition len {A} (l : list A) : Q := inject_Z (Z.of_nat (List.length l)).

(** [x in names] on a list of strings. *)
Definition type_in (names : list string) (e : Event) : bool :=
  existsb (String.eqb e.(type)) names.

Definition has_type (name : string) (e : Event) : bool :=
  String.eqb e.(type) name.

(** [e.get("data", {}).get(key, 0)]. *)
Definition data_get (key : string) (e : Event) : Q :=
  get (lookup key e.(data)) 0.

Definition _calculate_learning_time (events : list Event) : Q :=
  let learning_events :=
    filter (type_in ["learning_session"; "video_watch"; "quiz_attempt"]) events in
  sum (map (data_get "duration_minutes") learning_events).

Definition _calculate_completion_rate (events : list Event) : Q :=
  let started_events := filter (has_type "module_started") events in
  let completed_events := filter (has_type "module_completed") events in
  match started_events with
  | [] => 0
  | _ :: _ => (len completed_events / len started_events) * 100
  end.

(** [sum(scores) / len(scores)], kept as the exact quotient of the exact sum:
    the rounding of the float sum and division is not modelled, so only what
    does not depend on it is stated about this value. *)
Definition _calculate_average_score (events : list Event) : Q :=
  let quiz_events := filter (has_type "quiz_completed") events in
  let scores := map (data_get "score") quiz_events in
  match scores with
  | [] => 0
  | _ :: _ => sum scores / len scores
  end.

Definition _calculate_engagement_score (events : list Event) : Z :=
  let engagement_events :=
    ["video_watch"; "quiz_attempt"; "discussion_post"; "assignment_submit"] in
  let relevant_events := filter (type_in engagement_events) events in
  Z.min (Z.of_nat (List.length relevant_events) * 5) 100.

Definition _is_night_learner (events : list Event) : bool :=
  let learning_events :=
    filter (type_in ["learning_session"; "video_watch"]) events in
  match learning_events with
  | [] => false
  | _ :: _ =>
      let evening_hours := [19; 20; 21; 22; 23]%Z in
      let evening_events :=
        filter (fun e => existsb (Z.eqb (hour e.(timestamp))) evening_hours)
               learning_events in
      Qltb 0.6 (len evening_events / len learning_events)
  end.

Definition _is_improving (events : list Event) : bool :=
  let quiz_events := filter (has_type "quiz_completed") events in
  if (List.length quiz_events <? 3)%nat then false
  else
    let quiz_events := sort_asc timestamp quiz_events in
    let recent_scores := map (data_get "score") (slice_last 3 quiz_events) in
    let early_scores := map (data_get "score") (firstn 3 quiz_events) in
    Qltb (sum early_scores / len early_scores)
         (sum recent_scores / len recent_scores).

Definition night_learner_insight : Insight :=
  {| i_type := "learning_pattern";
     i_title := "Night Learner";
     i_description := "You learn most effectively during evening hours";
     i_recommendation := "Schedule important learning activities for 7-10 PM" |}.

Definition improving_insight : Insight :=
  {| i_type := "progress_trend";
     i_title := "Improving Performance";
     i_description := "Your scores have been trending upward";
     i_recommendation := "Keep up the current learning strategy" |}.

(** The comprehension [e for e in self.events if e["user_id"] == user_id
    and fromisoformat(e["timestamp"]) >= cutoff_date]. *)
Definition in_window (uid : string) (cutoff_date : datetime) (e : Event) : bool :=
  String.eqb e.(user_id) uid && (cutoff_date <=? e.(timestamp))%Z.

Definition calculate_user_metrics (events : list Event) (now : datetime)
           (uid : string) (days : Z) : Metrics :=
  let cutoff_date := (now - timedelta_days days)%Z in
  let user_events := filter (in_window uid cutoff_date) events in
  {| m_user_id := uid;
     period_days := days;
     total_events := List.length user_events;
     learning_time_minutes := _calculate_learning_time user_events;
     completion_rate := _calculate_completion_rate user_events;
     average_score := _calculate_average_score user_events;
     engagement_score := _calculate_engagement_score user_events |}.

Definition generate_insights (events : list Event) (uid : string) : list Insight :=
  let user_events := filter (fun e => String.eqb e.(user_id) uid) events in
  let insights := [] in
  let insights :=
    if _is_night_learner user_events
    then (insights ++ [night_learner_insight])%list else insights in
  let insights :=
    if _is_improving user_events
    then (insights ++ [improving_insight])%list else insights in
  insights.

(** [track_event]: [strftime] is [datetime.strftime('%Y%m%d_%H%M%S_%f')];
    [t_id] and [t_stamp] are the two clock reads of the call. *)
Definition track_event (strftime : datetime -> string) (events : list Event)
           (t_id t_stamp : datetime) (event_type uid : string)
           (payload : list (string * Q)) : list Event * Event :=
  let event :=
    {| id := "event_" ++ strftime t_id;
       type := event_type;
       user_id := uid;
       timestamp := t_stamp;
       data := payload |} in
  ((events ++ [event])%list, event).

(** The learning events of [_is_night_learner] and those among them that
    fall in the evening hours. *)
Definition learning_events (events : list Event) : list Event :=
  filter (type_in ["learning_session"; "video_watch"]) events.

Definition evening_events (events : list Event) : list Event :=
  filter (fun e => existsb (Z.eqb (hour e.(timestamp))) [19; 20; 21; 22; 23]%Z)
         (learning_events events).

End Analytics.


(* ================================================================= *)
(** ** integration/omniscient_hub/connector.py *)

Module Hub.

(** JSON-shaped Python values: what [response.json()] yields and what the
    connector returns. *)
#[local] Unset Elimination Schemes.
Inductive pyval : Type :=
| PNone
| PInt (z : Z)
| PNum (q : Q)
| PStr (s : string)
| PList (items : list pyval)
| PDict (entries : list (string * pyval)).
#[local] Set Elimination Schemes.

Definition dict := list (string * pyval).

(** Outcome of the block [response = self.session.post(..., timeout=30);
    response.raise_for_status(); response.json()]: the decoded body, or a
    [requests.RequestException] (connection error, timeout, HTTP error
    status). *)
Inductive response : Type :=
| Json (body : pyval)
| RequestException (msg : string).

(** The keys the fallbacks read from their dictionary arguments; an absent
    key is [None]. *)
Record StudentProfile := mkStudentProfile {
  sp_interests : option (list string);
  sp_skill_level : option string
}.

Record Session := mkSession {
  duration : option Q;
  timestamp : option string;
  content_type : option string
}.

Record LearningPath := mkLearningPath {
  estimated_duration : option Q
}.

Record ContentPreferences := mkContentPreferences {
  cp_interests : option (list string)
}.

(** [body.get(key, default)]; a body that is not a dictionary has no [get]. *)
Definition body_get (key : string) (default : pyval) (body : pyval) : result pyval :=
  match body with
  | PDict d => Ret (get (lookup key d) default)
  | _ => Raise "AttributeError"
  end.

(** [counts[k] = counts.get(k, 0) + 1] on an insertion-ordered dictionary. *)
Fixpoint bump {K} (eqb : K -> K -> bool) (k : K) (counts : list (K * Z))
  : list (K * Z) :=
  match counts with
  | [] => [(k, 1%Z)]
  | (k', n) :: rest =>
      if eqb k k' then (k', (n + 1)%Z) :: rest else (k', n) :: bump eqb k rest
  end.

(** [max(counts.items(), key=lambda x: x[1])]: the first item whose count is
    largest. *)
Fixpoint max_item {K} (best : K * Z) (items : list (K * Z)) : K * Z :=
  match items with
  | [] => best
  | item :: rest =>
      if (snd best <? snd item)%Z then max_item item rest else max_item best rest
  end.

Section Connector.

(** [str.title()]. *)
Variable str_title : string -> string.

(** [datetime.fromisoformat(text).hour]; [None] when the text does not parse
    ([ValueError]). *)
Variable iso_hour : string -> option Z.

Definition fallback_recommendation (skill_level interest : string) : dict :=
  [ ("type", PStr "content");
    ("title", PStr ("Advanced " ++ str_title interest ++ " Course"));
    ("description", PStr ("Learn advanced " ++ interest ++ " concepts"));
    ("difficulty", PStr skill_level);
    ("estimated_duration", PStr "4 weeks");
    ("confidence_score", PNum 0.75);
    ("source", PStr "fallback") ].

Definition _generate_fallback_recommendations (student_profile : StudentProfile)
  : list dict :=
  let interests := get student_profile.(sp_interests) [] in
  let skill_level := get student_profile.(sp_skill_level) "beginner" in
  map (fallback_recommendation skill_level) (firstn 3 interests).

(** The loop of [_find_most_active_hour] over the sessions. *)
Fixpoint hour_counts (learning_data : list Session) (counts : list (Z * Z))
  : result (list (Z * Z)) :=
  match learning_data with
  | [] => Ret counts
  | session :: rest =>
      let ts := get session.(timestamp) "" in
      if String.eqb ts "" then hour_counts rest counts
      else match iso_hour ts with
           | None => Raise "ValueError"
           | Some h => hour_counts rest (bump Z.eqb h counts)
           end
  end.

Definition _find_most_active_hour (learning_data : list Session) : result Z :=
  match learning_data with
  | [] => Ret 14%Z
  | _ :: _ =>
      bind (hour_counts learning_data [])
           (fun counts =>
              match counts with
              | [] => Ret 14%Z
              | item :: rest => Ret (fst (max_item item rest))
              end)
  end.

Definition type_mapping : list (string * string) :=
  [ ("video", "visual"); ("text", "reading");
    ("interactive", "kinesthetic"); ("audio", "auditory") ].

Definition _infer_learning_style (learning_data : list Session) : string :=
  match learning_data with
  | [] => "visual"
  | _ :: _ =>
      let content_types :=
        fold_left (fun counts session =>
                     bump String.eqb (get session.(content_type) "unknown") counts)
                  learning_data [] in
      let most_common_type :=
        match content_types with
        | [] => "video"
        | item :: rest => fst (max_item item rest)
        end in
      get (lookup most_common_type type_mapping) "visual"
  end.

Definition _generate_fallback_analysis (learning_data : list Session)
  : result dict :=
  match learning_data with
  | [] => Ret [ ("status", PStr "insufficient_data") ]
  | _ :: _ =>
      let total_sessions := Z.of_nat (List.length learning_data) in
      let average_session_length :=
        sum (map (fun d => get d.(duration) 0) learning_data)
        / inject_Z total_sessions in
      bind (_find_most_active_hour learning_data)
           (fun most_active_hour =>
              Ret [ ("total_sessions", PInt total_sessions);
                    ("average_session_length", PNum average_session_length);
                    ("most_active_hour", PInt most_active_hour);
                    ("learning_style", PStr (_infer_learning_style learning_data));
                    ("confidence_level", PNum 0.6);
                    ("source", PStr "fallback") ])
  end.

Definition completion_probabilities : list (string * Q) :=
  [ ("beginner", 0.85); ("intermediate", 0.75);
    ("advanced", 0.65); ("expert", 0.55) ].

Definition _generate_fallback_predictions (student_profile : StudentProfile)
           (learning_path : LearningPath) : dict :=
  let skill_level := get student_profile.(sp_skill_level) "beginner" in
  let path_duration := get learning_path.(estimated_duration) 40 in
  [ ("completion_probability",
     PNum (get (lookup skill_level completion_probabilities) 0.7));
    ("expected_mastery", PNum 0.8);
    ("estimated_completion_time", PNum (path_duration * 1.1));
    ("risk_factors", PList [PStr "limited_api_integration"]);
    ("success_factors", PList [PStr "structured_learning_path"]);
    ("confidence_level", PNum 0.5);
    ("source", PStr "fallback") ].

Definition fallback_content (interest : string) : dict :=
  [ ("type", PStr "course");
    ("title", PStr ("Introduction to " ++ str_title interest));
    ("description", PStr ("Learn the fundamentals of " ++ interest));
    ("difficulty", PStr "beginner");
    ("rating", PNum 4.5);
    ("relevance_score", PNum 0.7);
    ("source", PStr "fallback") ].

Definition _generate_fallback_content (content_preferences : ContentPreferences)
  : list dict :=
  let interests := get content_preferences.(cp_interests) ["general"] in
  map fallback_content (firstn 5 interests).

(** The four operations.  [outcome] is what the guarded block of the call
    produced; the request payload plays no part in what is returned. *)
Definition get_learning_recommendations (student_profile : StudentProfile)
           (context : dict) (outcome : response) : result pyval :=
  match outcome with
  | Json body => body_get "recommendations" (PList []) body
  | RequestException _ =>
      Ret (PList (map PDict (_generate_fallback_recommendations student_profile)))
  end.

Definition analyze_learning_pattern (student_id : string)
           (learning_data : list Session) (outcome : response) : result pyval :=
  match outcome with
  | Json body => Ret body
  | RequestException _ =>
      bind (_generate_fallback_analysis learning_data) (fun d => Ret (PDict d))
  end.

Definition predict_learning_outcomes (student_profile : StudentProfile)
           (learning_path : LearningPath) (outcome : response) : result pyval :=
  match outcome with
  | Json body => Ret body
  | RequestException _ =>
      Ret (PDict (_generate_fallback_predictions student_profile learning_path))
  end.

Definition get_personalized_content (student_id : string)
           (content_preferences : ContentPreferences) (outcome : response)
  : result pyval :=
  match outcome with
  | Json body => body_get "content" (PList []) body
  | RequestException _ =>
      Ret (PList (map PDict (_generate_fallback_content content_preferences)))
  end.

End Connector.

(** A session whose timestamp is absent, empty, or parses. *)
Definition readable (iso_hour : string -> option Z) (session : Session) : Prop :=
  get (timestamp session) "" = "" \/ iso_hour (get (timestamp session) "") <> None.

(** The hours [_find_most_active_hour] counts: one per session that carries
    a non-empty timestamp, in session order. *)
Definition session_hours (iso_hour : string -> option Z)
           (learning_data : list Session) : list Z :=
  flat_map (fun session =>
              let ts := get (timestamp session) "" in
              if String.eqb ts "" then []
              else match iso_hour ts with
                   | Some h => [h]
                   | None => []
                   end)
           learning_data.

(** How often [h] occurs in [hours]. *)
Definition occurrences (h : Z) (hours : list Z) : Z :=
  Z.of_nat (count_occ Z.eq_dec hours h).

(** [hour_counts.get(h, 0)]. *)
Fixpoint count_of (h : Z) (counts : list (Z * Z)) : Z :=
  match counts with
  | [] => 0%Z
  | (k, n) :: rest => if Z.eqb h k then n else count_of h rest
  end.

(** [counts] is the table of [hours]: one entry per distinct hour, holding
    the number of its occurrences. *)
Definition tallies (counts : list (Z * Z)) (hours : list Z) : Prop :=
  NoDup (map fst counts) /\
  (forall h, count_of h counts = occurrences h hours) /\
  (forall k, In k (map fst counts) <-> In k hours).

End Hub.

(* ================================================================= *)
(** ** core/assessment/engine.py *)

Module Assessment.

Definition datetime := Z.

(** A question dictionary, as far as scoring reads it. *)
Record Question := mkQuestion {
  q_id : option string;
  correct_answer : option string
}.

(** The keys [create_assessment] reads from [assessment_data]. *)
Record AssessmentData := mkAssessmentData {
  ad_id : option string;
  ad_title : option string;
  ad_type : option string;
  ad_course_id : option string;
  ad_questions : option (list Question);
  ad_time_limit : option Q;
  ad_max_score : option Q;
  ad_passing_score : option Q
}.

Record AssessmentRecord := mkAssessmentRecord {
  a_id : string;
  a_title : string;
  a_type : string;
  course_id : string;
  questions : list Question;
  time_limit : Q;
  max_score : Q;
  passing_score : Q;
  a_created_at : datetime
}.

(** A submission dictionary: the optional ["answers"] map from question id
    to answer. *)
Record Submission := mkSubmission {
  answers : option (list (string * string))
}.

Record Evaluation := mkEvaluation {
  e_assessment_id : string;
  e_student_id : string;
  score : Q;
  e_max_score : Q;
  passed : bool;
  feedback : string;
  submitted_at : datetime
}.

Definition Assessments := list (string * AssessmentRecord).
Definition Submissions := list (string * Evaluation).

(** [strftime] is [datetime.strftime('%Y%m%d_%H%M%S')]; [t_id] and
    [t_created] are the two clock reads of the call. *)
Definition create_assessment (strftime : datetime -> string)
           (assessments : Assessments) (t_id t_created : datetime)
           (assessment_data : AssessmentData)
  : Assessments * AssessmentRecord :=
  let assessment_id :=
    get assessment_data.(ad_id) ("assessment_" ++ strftime t_id) in
  let assessment :=
    {| a_id := assessment_id;
       a_title := get assessment_data.(ad_title) "";
       a_type := get assessment_data.(ad_type) "quiz";
       course_id := get assessment_data.(ad_course_id) "";
       questions := get assessment_data.(ad_questions) [];
       time_limit := get assessment_data.(ad_time_limit) 60;
       max_score := get assessment_data.(ad_max_score) 100;
       passing_score := get assessment_data.(ad_passing_score) 70;
       a_created_at := t_created |} in
  (assign assessment_id assessment assessments, assessment).

(** [answers.get(q.get("id"))]: a question without id finds no answer. *)
Definition answer_to (given : list (string * string)) (q : Question)
  : option string :=
  match q.(q_id) with
  | Some k => lookup k given
  | None => None
  end.

(** [answers.get(q.get("id")) == q.get("correct_answer")]. *)
Definition is_correct (given : list (string * string)) (q : Question) : bool :=
  match answer_to given q, q.(correct_answer) with
  | Some a, Some c => String.eqb a c
  | None, None => true
  | _, _ => false
  end.

Definition _calculate_score (submission : Submission)
           (assessment : AssessmentRecord) : Q :=
  let given := get submission.(answers) [] in
  let total_questions := List.length assessment.(questions) in
  let correct_answers :=
    List.length (filter (is_correct given) assessment.(questions)) in
  if (0 <? total_questions)%nat
  then (inject_Z (Z.of_nat correct_answers)
        / inject_Z (Z.of_nat total_questions)) * assessment.(max_score)
  else 0.

(** Dividing by a [max_score] of zero raises. *)
Definition _generate_feedback (the_score : Q) (assessment : AssessmentRecord)
  : result string :=
  if Qeq_bool assessment.(max_score) 0 then Raise "ZeroDivisionError"
  else
    let percentage := (the_score / assessment.(max_score)) * 100 in
    if Qle_bool 90 percentage
    then Ret "Excellent work! You've mastered this material."
    else if Qle_bool 80 percentage
    then Ret "Great job! You have a strong understanding of this topic."
    else if Qle_bool 70 percentage
    then Ret "Good work! Review the areas where you lost points."
    else Ret "You need to review this material more thoroughly.".

Definition not_found (assessment_id : string) : string :=
  "Assessment " ++ assessment_id ++ " not found".

Definition submission_key (assessment_id sid : string) : string :=
  assessment_id ++ "_" ++ sid.

Definition evaluate_submission (assessments : Assessments)
           (submissions : Submissions) (now : datetime)
           (assessment_id sid : string) (submission : Submission)
  : result (Submissions * Evaluation) :=
  match lookup assessment_id assessments with
  | None => Raise (not_found assessment_id)
  | Some assessment =>
      let the_score := _calculate_score submission assessment in
      let has_passed := Qle_bool assessment.(passing_score) the_score in
      bind (_generate_feedback the_score assessment)
           (fun text =>
              let evaluation :=
                {| e_assessment_id := assessment_id;
                   e_student_id := sid;
                   score := the_score;
                   e_max_score := assessment.(max_score);
                   passed := has_passed;
                   feedback := text;
                   submitted_at := now |} in
              Ret (assign (submission_key assessment_id sid) evaluation submissions,
                   evaluation))
  end.

End Assessment.


(* ================================================================= *)
(** ** Reading aids and sample data *)

Module Spec.

(** The multiplier table as the specification words it: one multiplier per
    difficulty label, 1.0 for a label that is not in the table. *)
Definition spec_multiplier (label : string) : Q :=
  if String.eqb label "beginner" then 1.0
  else if String.eqb label "medium" then 1.2
  else if String.eqb label "advanced" then 1.5
  else if String.eqb label "expert" then 2.0
  else 1.0.

(** The number of events of [uid] with tag [name] inside the trailing
    window of [days] days that ends at [now]. *)
Definition events_in_window (events : list Analytics.Event) (now : Z)
           (uid : string) (days : Z) (name : string) : nat :=
  List.length
    (filter (fun e =>
               (String.eqb (Analytics.user_id e) uid
                && (now - days * 86400000000 <=? Analytics.timestamp e)%Z)
               && String.eqb (Analytics.type e) name)
            events).

(** The difficulty labels from easiest to hardest. *)
Definition difficulty_rank (label : string) : nat :=
  if String.eqb label "beginner" then 0
  else if String.eqb label "medium" then 1
  else if String.eqb label "advanced" then 2
  else if String.eqb label "expert" then 3
  else 0.

(** A piece passes [filters]: every filter that is present agrees with the
    piece, and the piece carries every requested tag. *)
Definition matches (filters : Art.Filters) (art : Art.ArtPiece) : Prop :=
  (forall wanted, Art.f_style filters = Some wanted -> Art.style art = wanted) /\
  (forall wanted, Art.f_user_id filters = Some wanted -> Art.user_id art = wanted) /\
  (forall wanted, Art.f_tags filters = Some wanted ->
                  forall tag, In tag wanted -> In tag (Art.tags art)) /\
  (forall wanted, Art.f_featured filters = Some wanted -> Art.featured art = wanted).

(** The tags [_generate_tags] adds for the styles it knows. *)
Definition style_bonus_tags : list string :=
  [ "street_art"; "spray_paint"; "wall_art";
    "environment"; "sustainable"; "green";
    "contemporary"; "minimalist"; "clean" ].

(** Every label [get_style_suggestions] can suggest. *)
Definition suggestion_vocabulary : list string :=
  [ "street_art"; "graffiti"; "urban"; "modern"; "abstract"; "contemporary";
    "eco_art"; "nature_inspired"; "sustainable"; "digital"; "cyberpunk";
    "tech_art" ].

(** [kept] is [l] with some elements left out: the elements that stay keep
    the order they have in [l]. *)
Inductive subsequence {A : Type} : list A -> list A -> Prop :=
| subsequence_nil : subsequence [] []
| subsequence_keep (x : A) (kept l : list A) :
    subsequence kept l -> subsequence (x :: kept) (x :: l)
| subsequence_drop (x : A) (kept l : list A) :
    subsequence kept l -> subsequence kept (x :: l).

End Spec.

Module Samples.

Definition sample_profile : Learning.Profile :=
  {| Learning.student_id := "test_student";
     Learning.learning_style := "visual";
     Learning.skill_level := "beginner";
     Learning.interests := ["AI"; "art"];
     Learning.goals := ["learn python"];
     Learning.strengths := [];
     Learning.weaknesses := ["math"];
     Learning.progress_history := [];
     Learning.created_at := 0%Z;
     Learning.updated_at := 0%Z |}.

Definition sample_profiles : Learning.Profiles :=
  [("test_student", sample_profile)].

(** [{"score": 100, "time_spent": 45, "difficulty": "expert"}] *)
Definition performance_expert : Learning.PerformanceData :=
  {| Learning.pd_score := Some 100;
     Learning.pd_time_spent := Some 45;
     Learning.pd_difficulty := Some "expert";
     Learning.pd_completion_rate := None |}.

(** [{"score": -50, "time_spent": 10, "difficulty": "beginner"}] *)
Definition performance_negative : Learning.PerformanceData :=
  {| Learning.pd_score := Some (-50);
     Learning.pd_time_spent := Some 10;
     Learning.pd_difficulty := Some "beginner";
     Learning.pd_completion_rate := None |}.

(** [{"score": 80, "time_spent": 0, "difficulty": "medium"}] *)
Definition performance_no_time : Learning.PerformanceData :=
  {| Learning.pd_score := Some 80;
     Learning.pd_time_spent := Some 0;
     Learning.pd_difficulty := Some "medium";
     Learning.pd_completion_rate := None |}.

Definition sample_metadata : Art.Metadata :=
  {| Art.prompt_length := 23;
     Art.m_style := "modern";
     Art.generation_model := "CitySpark-Art-v1.0";
     Art.resolution := "1920x1080";
     Art.format := "digital_art";
     Art.keywords := ["modern"; "city"] |}.

(** A piece as [generate_art] stores it, with the given counters. *)
Definition sample_piece (art_id : string) (n_likes n_views : Z) : Art.ArtPiece :=
  {| Art.id := art_id;
     Art.prompt := "futuristic city skyline";
     Art.style := "modern";
     Art.user_id := Some "demo_user";
     Art.title := "Futuristic City Skyline - Modern Urban Style";
     Art.description := "AI-generated urban art inspired by: futuristic city skyline. ";
     Art.metadata := sample_metadata;
     Art.image_url := "/static/generated_art/" ++ art_id ++ ".jpg";
     Art.thumbnail_url := "/static/generated_art/" ++ art_id ++ "_thumb.jpg";
     Art.tags := ["modern"; "city"];
     Art.created_at := 0%Z;
     Art.likes := n_likes;
     Art.views := n_views;
     Art.featured := false;
     Art.updated_at := None;
     Art.popularity_score := None |}.

Definition sample_gallery : Art.Gallery :=
  [ ("art_1", sample_piece "art_1" 3 10);
    ("art_2", sample_piece "art_2" 5 0) ].

(** Two pieces whose scores [1*2 + 3*0.1] and [0*2 + 23*0.1] are both 2.3 as
    real numbers and differ as floats (2.3 and 2.3000000000000003). *)
Definition close_gallery : Art.Gallery :=
  [ ("art_a", sample_piece "art_a" 1 3);
    ("art_b", sample_piece "art_b" 0 23) ].

(** 2026-01-05 20:00:00 as microseconds since 1970-01-01 00:00:00. *)
Definition sample_now : Z := 1767643200000000.

Definition sample_event (name : string) (minutes_ago : Z)
           (payload : list (string * Q)) : Analytics.Event :=
  {| Analytics.id := "event_" ++ name;
     Analytics.type := name;
     Analytics.user_id := "demo_user";
     Analytics.timestamp := (sample_now - minutes_ago * 60000000)%Z;
     Analytics.data := payload |}.

(** One module started and completed within the last hour. *)
Definition module_log : list Analytics.Event :=
  [ sample_event "module_started" 50 [];
    sample_event "module_completed" 10 [] ].

(** Exactly three quizzes, with rising scores. *)
Definition quiz_log : list Analytics.Event :=
  [ sample_event "quiz_completed" 300 [("score", 60)];
    sample_event "quiz_completed" 200 [("score", 70)];
    sample_event "learning_session" 150 [("duration_minutes", 45)];
    sample_event "quiz_completed" 100 [("score", 95)] ].

(** [str.title()] on ASCII text: a letter that follows a letter is lowered,
    any other letter is raised. *)
Definition is_lower (c : ascii) : bool :=
  (97 <=? nat_of_ascii c)%nat && (nat_of_ascii c <=? 122)%nat.

Definition is_upper (c : ascii) : bool :=
  (65 <=? nat_of_ascii c)%nat && (nat_of_ascii c <=? 90)%nat.

Definition to_upper (c : ascii) : ascii :=
  if is_lower c then ascii_of_nat (nat_of_ascii c - 32) else c.

Definition to_lower (c : ascii) : ascii :=
  if is_upper c then ascii_of_nat (nat_of_ascii c + 32) else c.

Fixpoint title_from (after_letter : bool) (s : string) : string :=
  match s with
  | EmptyString => EmptyString
  | String c rest =>
      if is_lower c || is_upper c
      then String (if after_letter then to_lower c else to_upper c)
                  (title_from true rest)
      else String c (title_from false rest)
  end.

Definition ascii_title (s : string) : string := title_from false s.

Definition digit (c : ascii) : option Z :=
  if (48 <=? nat_of_ascii c)%nat && (nat_of_ascii c <=? 57)%nat
  then Some (Z.of_nat (nat_of_ascii c - 48)) else None.

(** The hour field of a text of the shape [YYYY-MM-DDTHH:MM:SS]. *)
Definition ascii_iso_hour (s : string) : option Z :=
  match String.get 10 s, String.get 11 s, String.get 12 s with
  | Some sep, Some h1, Some h2 =>
      match digit h1, digit h2 with
      | Some d1, Some d2 =>
          if (Ascii.eqb sep "T" || Ascii.eqb sep " ") && (d1 * 10 + d2 <? 24)%Z
          then Some (d1 * 10 + d2)%Z else None
      | _, _ => None
      end
  | _, _, _ => None
  end.

Definition sample_student : Hub.StudentProfile :=
  {| Hub.sp_interests := Some ["machine learning"; "art"];
     Hub.sp_skill_level := Some "intermediate" |}.

Definition sample_sessions : list Hub.Session :=
  [ {| Hub.duration := Some 30;
       Hub.timestamp := Some "2026-01-05T20:15:00";
       Hub.content_type := Some "video" |};
    {| Hub.duration := Some 50;
       Hub.timestamp := None;
       Hub.content_type := Some "text" |} ].

(** [{"learning_style": "auditory", "interests": ["AI"]}] *)
Definition sample_profile_data : Learning.ProfileData :=
  {| Learning.pf_learning_style := Some "auditory";
     Learning.pf_skill_level := None;
     Learning.pf_interests := Some ["AI"];
     Learning.pf_goals := None;
     Learning.pf_strengths := None;
     Learning.pf_weaknesses := None |}.

(** A profile with twelve interests and two weaknesses. *)
Definition crowded_profile : Learning.Profile :=
  {| Learning.student_id := "busy_student";
     Learning.learning_style := "reading";
     Learning.skill_level := "expert";
     Learning.interests :=
       ["a"; "b"; "c"; "d"; "e"; "f"; "g"; "h"; "i"; "j"; "k"; "l"];
     Learning.goals := [];
     Learning.strengths := [];
     Learning.weaknesses := ["x"; "y"];
     Learning.progress_history := [];
     Learning.created_at := 0%Z;
     Learning.updated_at := 0%Z |}.

Definition crowded_profiles : Learning.Profiles :=
  [("test_student", sample_profile); ("busy_student", crowded_profile)].

(** Stand-ins for the string methods, on ASCII text. *)
Definition is_space (c : ascii) : bool :=
  (nat_of_ascii c =? 32)%nat
  || ((9 <=? nat_of_ascii c)%nat && (nat_of_ascii c <=? 13)%nat).

Fixpoint split_from (word s : string) : list string :=
  match s with
  | EmptyString => if String.eqb word "" then [] else [word]
  | String c rest =>
      if is_space c
      then (if String.eqb word "" then split_from "" rest
            else word :: split_from "" rest)
      else split_from (word ++ String c EmptyString) rest
  end.

Definition ascii_split (s : string) : list string := split_from "" s.

Fixpoint ascii_lower (s : string) : string :=
  match s with
  | EmptyString => EmptyString
  | String c rest => String (to_lower c) (ascii_lower rest)
  end.

Definition ascii_capitalize (s : string) : string :=
  match s with
  | EmptyString => EmptyString
  | String c rest => String (to_upper c) (ascii_lower rest)
  end.

Definition ascii_len (s : string) : Z := Z.of_nat (String.length s).

Definition distinct (l : list string) : list string := nodup string_dec l.

(** A clock in whole seconds, printed in decimal. *)
Definition seconds_text (t : Z) : string :=
  NilZero.string_of_int (Z.to_int (t / 1000000)).

Definition modern_only : Art.Filters :=
  {| Art.f_style := Some "modern";
     Art.f_user_id := None;
     Art.f_tags := Some ["city"];
     Art.f_featured := None |}.

(** A learning session of [uid], a number of hours before [sample_now]. *)
Definition session_at (uid : string) (hours_ago : Z) : Analytics.Event :=
  {| Analytics.id := "event_session";
     Analytics.type := "learning_session";
     Analytics.user_id := uid;
     Analytics.timestamp := (sample_now - hours_ago * 3600000000)%Z;
     Analytics.data := [("duration_minutes", 30)] |}.

(** Five learning sessions, four of them in the evening. *)
Definition evening_log : list Analytics.Event :=
  [ session_at "demo_user" 0; session_at "demo_user" 24;
    session_at "demo_user" 48; session_at "demo_user" 9;
    session_at "demo_user" 72 ].

Definition stranger_log : list Analytics.Event :=
  [ session_at "someone_else" 1; session_at "someone_else" 2 ].

(** Three sessions at 20h, 9h and 20h, and one without a timestamp. *)
Definition hourly_sessions : list Hub.Session :=
  [ {| Hub.duration := Some 30;
       Hub.timestamp := Some "2026-01-05T20:15:00";
       Hub.content_type := Some "video" |};
    {| Hub.duration := Some 20;
       Hub.timestamp := Some "2026-01-06T09:00:00";
       Hub.content_type := Some "audio" |};
    {| Hub.duration := None;
       Hub.timestamp := Some "";
       Hub.content_type := Some "audio" |};
    {| Hub.duration := Some 45;
       Hub.timestamp := Some "2026-01-06T20:40:00";
       Hub.content_type := None |} ].

(** A two-question quiz worth 100 points, passing at 70. *)
Definition sample_quiz : Assessment.AssessmentRecord :=
  {| Assessment.a_id := "quiz_1";
     Assessment.a_title := "Python basics";
     Assessment.a_type := "quiz";
     Assessment.course_id := "python_101";
     Assessment.questions :=
       [ Assessment.mkQuestion (Some "q1") (Some "a");
         Assessment.mkQuestion (Some "q2") (Some "c") ];
     Assessment.time_limit := 60;
     Assessment.max_score := 100;
     Assessment.passing_score := 70;
     Assessment.a_created_at := 0%Z |}.

(** The same quiz with [max_score] 0. *)
Definition pointless_quiz : Assessment.AssessmentRecord :=
  {| Assessment.a_id := "quiz_0";
     Assessment.a_title := "Python basics";
     Assessment.a_type := "quiz";
     Assessment.course_id := "python_101";
     Assessment.questions :=
       [ Assessment.mkQuestion (Some "q1") (Some "a");
         Assessment.mkQuestion (Some "q2") (Some "c") ];
     Assessment.time_limit := 60;
     Assessment.max_score := 0;
     Assessment.passing_score := 70;
     Assessment.a_created_at := 0%Z |}.

Definition sample_assessments : Assessment.Assessments :=
  [("quiz_1", sample_quiz); ("quiz_0", pointless_quiz)].

(** [{"answers": {"q1": "a", "q2": "b"}}]: one of two answers right. *)
Definition half_right : Assessment.Submission :=
  {| Assessment.answers := Some [("q1", "a"); ("q2", "b")] |}.

End Samples.


(* ================================================================= *)
(** * Properties *)

(** ** Facts about the Python built-ins *)

Module PyFacts.

Lemma Qltb_lt (a b : Q) : Qltb a b = true <-> a < b.
Proof.
  unfold Qltb. rewrite negb_true_iff.
  split; intro H.
  - apply Qnot_le_lt. intro Hle. apply Qle_bool_iff in Hle. congruence.
  - destruct (Qle_bool b a) eqn:E; [|reflexivity].
    apply Qle_bool_iff in E. exfalso. eapply Qlt_not_le; eauto.
Qed.

Lemma Qltb_ge (a b : Q) : Qltb a b = false <-> b <= a.
Proof.
  unfold Qltb. rewrite negb_false_iff. apply Qle_bool_iff.
Qed.

Lemma Qltb_irrefl (a : Q) : Qltb a a = false.
Proof. apply Qltb_ge. apply Qle_refl. Qed.

Lemma min_le_r (a b : Q) : Py.min a b <= b.
Proof.
  unfold Py.min. destruct (Qltb b a) eqn:E.
  - apply Qle_refl.
  - now apply Qltb_ge in E.
Qed.

Lemma min_glb (c a b : Q) : c <= a -> c <= b -> c <= Py.min a b.
Proof. intros Ha Hb. unfold Py.min. now destruct (Qltb b a). Qed.


Lemma lookup_assign_same {V} (k : string) (v : V) (d : list (string * V)) :
  lookup k (assign k v d) = Some v.
Proof.
  induction d as [|[k' v'] d IH]; simpl.
  - now rewrite String.eqb_refl.
  - destruct (String.eqb k k') eqn:E; simpl; rewrite E; auto.
Qed.

Lemma lookup_assign_other {V} (k k0 : string) (v : V) (d : list (string * V)) :
  k0 <> k -> lookup k0 (assign k v d) = lookup k0 d.
Proof.
  intros Hne. induction d as [|[k' v'] d IH]; simpl.
  - destruct (String.eqb k0 k) eqn:E; [|reflexivity].
    apply String.eqb_eq in E. contradiction.
  - destruct (String.eqb k k') eqn:E; simpl.
    + apply String.eqb_eq in E. subst k'.
      destruct (String.eqb k0 k) eqn:E0; [|reflexivity].
      apply String.eqb_eq in E0. contradiction.
    + now rewrite IH.
Qed.

Lemma assign_keys {V} (k : string) (v v0 : V) (d : list (string * V)) :
  lookup k d = Some v0 -> map fst (assign k v d) = map fst d.
Proof.
  induction d as [|[k' v'] d IH]; simpl; [discriminate|].
  destruct (String.eqb k k') eqn:E; simpl; intros H.
  - reflexivity.
  - now rewrite IH.
Qed.

Lemma slice_to_nonneg_length {A} (n : Z) (l : list A) :
  (0 <= n)%Z -> (Z.of_nat (List.length (slice_to n l)) <= n)%Z.
Proof.
  intros Hn. unfold slice_to.
  destruct (0 <=? n)%Z eqn:E; [|lia].
  rewrite length_firstn. lia.
Qed.


Section StableSortFacts.
Context {A : Type}.
Variable before : A -> A -> bool.

Lemma insert_perm (x : A) (l : list A) :
  Permutation (insert before x l) (x :: l).
Proof.
  induction l as [|y l IH]; simpl; [reflexivity|].
  destruct (before y x); [|reflexivity].
  rewrite IH. apply perm_swap.
Qed.

Lemma stable_sort_perm (l : list A) : Permutation (stable_sort before l) l.
Proof.
  induction l as [|x l IH]; simpl; [reflexivity|].
  rewrite insert_perm. now constructor.
Qed.

Lemma stable_sort_length (l : list A) :
  List.length (stable_sort before l) = List.length l.
Proof. apply Permutation_length, stable_sort_perm. Qed.

(** Inserting [x] does not disturb the sub-list selected by [P] when [x]
    never overtakes an element selected together with it. *)
Lemma insert_filter (P : A -> bool) (x : A) (l : list A) :
  (forall y, before y x = true -> P x = true -> P y = true -> False) ->
  filter P (insert before x l) = filter P (x :: l).
Proof.
  intros Hsep. induction l as [|y l IH]; [reflexivity|].
  simpl insert. destruct (before y x) eqn:E; [|reflexivity].
  simpl filter in *. rewrite IH.
  destruct (P x) eqn:Px, (P y) eqn:Py; try reflexivity.
  exfalso. eapply Hsep; eauto.
Qed.

End StableSortFacts.

Lemma in_firstn {A} (n : nat) (l : list A) (z : A) :
  In z (firstn n l) -> In z l.
Proof.
  intros H. rewrite <- (firstn_skipn n l). apply in_or_app. now left.
Qed.

Section SortDesc.
Context {A : Type}.
Variable key : A -> Q.

Lemma sort_desc_perm (l : list A) : Permutation (sort_desc key l) l.
Proof. apply stable_sort_perm. Qed.


Lemma insert_desc_sorted (x : A) (l : list A) :
  StronglySorted (ge_key key) l ->
  StronglySorted (ge_key key) (insert (fun a b => Qltb (key b) (key a)) x l).
Proof.
  induction 1 as [|y l Hs IH Hall]; simpl.
  - repeat constructor.
  - destruct (Qltb (key x) (key y)) eqn:E.
    + constructor; [exact IH|].
      eapply Permutation_Forall; [symmetry; apply insert_perm|].
      constructor; [|exact Hall].
      apply Qltb_lt in E. unfold ge_key. now apply Qlt_le_weak.
    + apply Qltb_ge in E.
      constructor; [now constructor|].
      constructor; [exact E|].
      eapply Forall_impl; [|exact Hall].
      intros z Hz. unfold ge_key in *. eapply Qle_trans; eauto.
Qed.

Lemma sort_desc_sorted (l : list A) : StronglySorted (ge_key key) (sort_desc key l).
Proof.
  induction l as [|x l IH]; simpl; [constructor|].
  now apply insert_desc_sorted.
Qed.

(** Stability: for each key value, the items carrying it come out in the
    order they went in. *)
Lemma sort_desc_stable (r : Q) (l : list A) :
  with_key key r (sort_desc key l) = with_key key r l.
Proof.
  unfold with_key, sort_desc.
  induction l as [|x l IH]; [reflexivity|].
  simpl stable_sort. rewrite insert_filter.
  - simpl. now rewrite IH.
  - intros y Hlt Hx Hy. apply Qltb_lt in Hlt.
    apply Qeq_bool_iff in Hx, Hy. rewrite Hx, Hy in Hlt.
    now apply Qlt_irrefl in Hlt.
Qed.

(** A list that is already descending is left as it is. *)
Lemma sort_desc_sorted_id (l : list A) :
  StronglySorted (ge_key key) l -> sort_desc key l = l.
Proof.
  unfold sort_desc. induction 1 as [|x l Hs IH Hall]; [reflexivity|].
  simpl. rewrite IH. destruct l as [|y l]; [reflexivity|].
  simpl. inversion Hall as [|? ? Hxy _]; subst.
  apply Qltb_ge in Hxy. now rewrite Hxy.
Qed.

Lemma firstn_sorted (n : nat) (l : list A) :
  StronglySorted (ge_key key) l -> StronglySorted (ge_key key) (firstn n l).
Proof.
  intros H. revert n. induction H as [|x l Hs IH Hall]; intros [|n]; simpl;
    try constructor.
  - apply IH.
  - rewrite Forall_forall in *. intros z Hz. apply Hall.
    eapply in_firstn; eauto.
Qed.

End SortDesc.

(** Sorting commutes with a relabelling that leaves the order untouched. *)
Lemma stable_sort_map {A B} (f : A -> B) (before : A -> A -> bool)
      (before' : B -> B -> bool) (l : list A) :
  (forall a b, before' (f a) (f b) = before a b) ->
  stable_sort before' (map f l) = map f (stable_sort before l).
Proof.
  intros Hf.
  assert (Hins : forall x l0,
             insert before' (f x) (map f l0) = map f (insert before x l0)).
  { intros x l0. induction l0 as [|y l0 IH]; simpl; [reflexivity|].
    rewrite Hf. destruct (before y x); simpl; [now rewrite IH|reflexivity]. }
  induction l as [|x l IH]; simpl; [reflexivity|].
  now rewrite IH, Hins.
Qed.

Lemma StronglySorted_map {A B} (f : A -> B) (R : A -> A -> Prop)
      (R' : B -> B -> Prop) (l : list A) :
  (forall a b, R a b -> R' (f a) (f b)) ->
  StronglySorted R l -> StronglySorted R' (map f l).
Proof.
  intros Hf. induction 1 as [|x l Hs IH Hall]; simpl; constructor; [exact IH|].
  rewrite Forall_forall in *. intros z Hz.
  apply in_map_iff in Hz. destruct Hz as (y & <- & Hy). auto.
Qed.

End PyFacts.

Import PyFacts.

(* ================================================================= *)
(** ** The learning engine *)

Module LearningFacts.

Import Learning Spec Samples.

Lemma multiplier_table (label : string) :
  get (lookup label difficulty_multipliers) 1.0 = spec_multiplier label.
Proof.
  unfold difficulty_multipliers, spec_multiplier. simpl.
  repeat match goal with
         | |- context [String.eqb label ?s] => destruct (String.eqb label s)
         end; reflexivity.
Qed.

Lemma multiplier_nonneg (label : string) : 0 <= spec_multiplier label.
Proof.
  unfold spec_multiplier.
  repeat match goal with
         | |- context [String.eqb label ?s] => destruct (String.eqb label s)
         end; discriminate.
Qed.

Lemma scaled_score_nonneg (score m : Q) :
  0 <= score -> 0 <= m -> 0 <= (score * m) / 100.
Proof.
  intros Hs Hm. apply Qle_shift_div_l; [reflexivity|].
  rewrite Qmult_0_l. now apply Qmult_le_0_compat.
Qed.

(** What [analyze_performance] returns for a stored profile. *)
Lemma analyze_performance_stored profiles t1 t2 sid pd profile :
  lookup sid profiles = Some profile ->
  exists st a,
    analyze_performance profiles t1 t2 sid pd = Ret (st, a) /\
    mastery_level a =
      _calculate_mastery_level (get (pd_score pd) 0) (get (pd_difficulty pd) "medium") /\
    efficiency a =
      (if Qltb 0 (get (pd_time_spent pd) 0)
       then get (pd_score pd) 0 / Py.max (get (pd_time_spent pd) 0) 1
       else 0).
Proof.
  intros Hl. unfold analyze_performance. rewrite Hl.
  eexists _, _. split; [reflexivity|]. split; reflexivity.
Qed.

(** C1 (as amended): the mastery level that [analyze_performance] records is
    [min((score * multiplier) / 100, 1.0)] with the multiplier of the
    difficulty label (1.0 for a label outside the table); it never exceeds
    1.0, and it is at least 0.0 whenever the score is not negative.  A score
    of 100 at difficulty "expert" gives 1.0. *)
Theorem mastery_level_formula_and_bounds profiles t1 t2 sid pd profile :
  lookup sid profiles = Some profile ->
  exists st a,
    analyze_performance profiles t1 t2 sid pd = Ret (st, a) /\
    let score := get (pd_score pd) 0 in
    let label := get (pd_difficulty pd) "medium" in
    mastery_level a = Py.min ((score * spec_multiplier label) / 100) 1.0 /\
    mastery_level a <= 1.0 /\
    (0 <= score -> 0 <= mastery_level a) /\
    _calculate_mastery_level 100 "expert" = 1.0.
Proof.
  intros Hl.
  destruct (analyze_performance_stored profiles t1 t2 sid pd profile Hl)
    as (st & a & Hret & Hm & _).
  exists st, a. split; [exact Hret|]. cbv zeta.
  unfold _calculate_mastery_level in Hm. rewrite multiplier_table in Hm.
  rewrite Hm. repeat split.
  - apply min_le_r.
  - intros Hs. apply min_glb; [|discriminate].
    apply scaled_score_nonneg; [exact Hs|apply multiplier_nonneg].
Qed.

Lemma mastery_level_formula_and_bounds_witness :
  exists st a,
    analyze_performance sample_profiles 1%Z 2%Z "test_student" performance_expert
      = Ret (st, a) /\
    mastery_level a = 1.0 /\ mastery_level a <= 1.0 /\ 0 <= mastery_level a.
Proof.
  destruct (mastery_level_formula_and_bounds sample_profiles 1%Z 2%Z "test_student"
              performance_expert sample_profile eq_refl)
    as (st & a & Hret & Hm & Hle & Hge & _).
  exists st, a. split; [exact Hret|]. split; [exact Hm|]. split; [exact Hle|].
  apply Hge. discriminate.
Defined.

(** C1 as stated fails below zero: a score of -50 at difficulty "beginner"
    is recorded with mastery level -0.5. *)
Lemma mastery_level_negative_score :
  exists st a,
    analyze_performance sample_profiles 1%Z 2%Z "test_student" performance_negative
      = Ret (st, a) /\
    mastery_level a == -0.5 /\ mastery_level a < 0.
Proof.
  eexists _, _. split; [reflexivity|]. split; reflexivity.
Qed.

(** C4 (as amended): for a positive [time_spent] the recorded efficiency is
    [score / max(time_spent, 1)]; for [time_spent] zero (or below) it is 0. *)
Theorem efficiency_guarded profiles t1 t2 sid pd profile :
  lookup sid profiles = Some profile ->
  exists st a,
    analyze_performance profiles t1 t2 sid pd = Ret (st, a) /\
    let score := get (pd_score pd) 0 in
    let time_spent := get (pd_time_spent pd) 0 in
    (0 < time_spent -> efficiency a = score / Py.max time_spent 1) /\
    (time_spent <= 0 -> efficiency a = 0).
Proof.
  intros Hl.
  destruct (analyze_performance_stored profiles t1 t2 sid pd profile Hl)
    as (st & a & Hret & _ & He).
  exists st, a. split; [exact Hret|]. cbv zeta. rewrite He.
  split; intros Ht.
  - apply Qltb_lt in Ht. now rewrite Ht.
  - apply Qltb_ge in Ht. now rewrite Ht.
Qed.

Lemma efficiency_guarded_witness :
  exists st a,
    analyze_performance sample_profiles 1%Z 2%Z "test_student" performance_expert
      = Ret (st, a) /\
    efficiency a = 100 / Py.max 45 1.
Proof.
  destruct (efficiency_guarded sample_profiles 1%Z 2%Z "test_student"
              performance_expert sample_profile eq_refl)
    as (st & a & Hret & Hpos & _).
  exists st, a. split; [exact Hret|]. apply Hpos. reflexivity.
Defined.

(** C4 as stated fails at [time_spent = 0]: with a score of 80 the recorded
    efficiency is 0, while [score / max(time_spent, 1)] is 80. *)
Lemma efficiency_zero_time_spent :
  exists st a,
    analyze_performance sample_profiles 1%Z 2%Z "test_student" performance_no_time
      = Ret (st, a) /\
    efficiency a = 0 /\
    80 / Py.max 0 1 == 80 /\
    ~ efficiency a == 80 / Py.max 0 1.
Proof.
  eexists _, _. split; [reflexivity|]. split; [reflexivity|].
  split; [reflexivity|]. discriminate.
Qed.

(** *** Ranking *)

Lemma interest_entries_descending (names : list string) (tail : list Recommendation) :
  descending tail ->
  Forall (fun r => relevance_score r <= 0.9) tail ->
  descending (map interest_entry names ++ tail)%list /\
  Forall (fun r => relevance_score r <= 0.9) (map interest_entry names ++ tail)%list.
Proof.
  intros Hs Hb. induction names as [|n names [IHs IHb]]; simpl; [now split|].
  split.
  - constructor; [exact IHs|]. exact IHb.
  - constructor; [discriminate|exact IHb].
Qed.

Lemma weakness_entries_descending (names : list string) (tail : list Recommendation) :
  descending tail ->
  Forall (fun r => relevance_score r <= 0.85) tail ->
  descending (map weakness_entry names ++ tail)%list /\
  Forall (fun r => relevance_score r <= 0.85) (map weakness_entry names ++ tail)%list.
Proof.
  intros Hs Hb. induction names as [|n names [IHs IHb]]; simpl; [now split|].
  split.
  - constructor; [exact IHs|]. exact IHb.
  - constructor; [discriminate|exact IHb].
Qed.

(** The three producers already emit their entries in descending order. *)
Lemma merged_descending (profile : Profile) (context : option ContextDict) :
  descending (merged profile context).
Proof.
  unfold merged, _recommend_content. rewrite <- app_assoc.
  apply interest_entries_descending.
  - apply weakness_entries_descending.
    + unfold descending, ge_key. simpl.
      repeat (constructor; [|repeat (constructor; try discriminate)]).
      constructor.
    + simpl. repeat (constructor; try discriminate).
  - eapply Forall_impl;
      [|apply weakness_entries_descending].
    + intros r Hr. eapply Qle_trans; [exact Hr|discriminate].
    + unfold descending, ge_key. simpl.
      repeat (constructor; [|repeat (constructor; try discriminate)]).
      constructor.
    + simpl. repeat (constructor; try discriminate).
Qed.

(** For a stored profile the sort finds nothing to move. *)
Lemma get_recommendations_stored profiles sid context profile :
  lookup sid profiles = Some profile ->
  get_recommendations profiles sid context
    = Ret (firstn 10 (merged profile context)) /\
  descending (firstn 10 (merged profile context)).
Proof.
  intros Hl. unfold get_recommendations. rewrite Hl.
  rewrite sort_desc_sorted_id by apply merged_descending.
  split; [reflexivity|].
  apply (firstn_sorted relevance_score), merged_descending.
Qed.

(** C2: for a stored profile [get_recommendations] returns at most 10
    entries in descending relevance order; they are the first 10 of a
    rearrangement of the merged list in which, for every relevance value, the
    entries carrying it keep the order the producers gave them; so the
    interest entries precede the weakness entries, which precede the two
    activity entries and the peer entry. *)
Theorem get_recommendations_top10_sorted_stable profiles sid context profile :
  lookup sid profiles = Some profile ->
  exists recs sorted,
    get_recommendations profiles sid context = Ret recs /\
    (List.length recs <= 10)%nat /\
    StronglySorted (fun a b => relevance_score b <= relevance_score a) recs /\
    recs = firstn 10 sorted /\
    Permutation sorted (merged profile context) /\
    StronglySorted (fun a b => relevance_score b <= relevance_score a) sorted /\
    (forall r, with_key relevance_score r sorted
               = with_key relevance_score r (merged profile context)) /\
    recs = firstn 10 (map interest_entry (interests profile)
                      ++ map weakness_entry (weaknesses profile)
                      ++ _recommend_activities profile context
                      ++ _recommend_peer_learning profile)%list.
Proof.
  intros Hl.
  exists (firstn 10 (sort_desc relevance_score (merged profile context))),
         (sort_desc relevance_score (merged profile context)).
  split; [unfold get_recommendations; now rewrite Hl|].
  split; [apply firstn_le_length|].
  split; [apply (firstn_sorted relevance_score), sort_desc_sorted|].
  split; [reflexivity|].
  split; [apply sort_desc_perm|].
  split; [apply sort_desc_sorted|].
  split; [intros r; apply sort_desc_stable|].
  rewrite sort_desc_sorted_id by apply merged_descending.
  unfold merged, _recommend_content. now rewrite <- app_assoc.
Qed.

Lemma get_recommendations_top10_sorted_stable_witness :
  exists recs,
    get_recommendations sample_profiles "test_student" None = Ret recs /\
    (List.length recs <= 10)%nat /\
    map title recs = ["Advanced AI"; "Advanced art"; "Master math";
                      "Collaborative Project"; "Quiz Challenge"; "Study Group"].
Proof.
  destruct (get_recommendations_top10_sorted_stable sample_profiles
              "test_student" None sample_profile eq_refl)
    as (recs & sorted & Hret & Hlen & _ & _ & _ & _ & _ & Hrecs).
  exists recs. split; [exact Hret|]. split; [exact Hlen|].
  rewrite Hrecs. reflexivity.
Defined.

(** C5 (as amended): with interests ["AI", "art"] and weaknesses ["math"]
    exactly six entries come back: a title containing "AI", one containing
    "art", one containing "math", then the two activity entries and the peer
    entry.  Their relevance scores are 0.9, 0.9, 0.85, 0.8, 0.75, 0.7: in
    descending order, the two interest entries tied and every later score
    strictly smaller than the one before it. *)
Theorem get_recommendations_ai_art_math profiles sid context profile :
  lookup sid profiles = Some profile ->
  interests profile = ["AI"; "art"] ->
  weaknesses profile = ["math"] ->
  exists r1 r2 r3 r4 r5 r6,
    get_recommendations profiles sid context = Ret [r1; r2; r3; r4; r5; r6] /\
    str_in "AI" (title r1) = true /\
    str_in "art" (title r2) = true /\
    str_in "math" (title r3) = true /\
    [r4; r5] = _recommend_activities profile context /\
    [r6] = _recommend_peer_learning profile /\
    map relevance_score [r1; r2; r3; r4; r5; r6] = [0.9; 0.9; 0.85; 0.8; 0.75; 0.7] /\
    StronglySorted (fun a b => relevance_score b <= relevance_score a)
                   [r1; r2; r3; r4; r5; r6] /\
    relevance_score r1 == relevance_score r2 /\
    relevance_score r3 < relevance_score r2 /\
    relevance_score r4 < relevance_score r3 /\
    relevance_score r5 < relevance_score r4 /\
    relevance_score r6 < relevance_score r5.
Proof.
  intros Hl Hi Hw.
  destruct (get_recommendations_stored profiles sid context profile Hl)
    as (Hret & Hsorted).
  unfold merged, _recommend_content in Hret, Hsorted.
  rewrite Hi, Hw in Hret, Hsorted. simpl in Hret, Hsorted.
  eexists _, _, _, _, _, _. split; [exact Hret|].
  repeat (split; [reflexivity|]).
  split; [exact Hsorted|].
  repeat split.
Qed.

Lemma get_recommendations_ai_art_math_witness :
  exists recs,
    get_recommendations sample_profiles "test_student" None = Ret recs /\
    List.length recs = 6%nat /\
    map relevance_score recs = [0.9; 0.9; 0.85; 0.8; 0.75; 0.7].
Proof.
  destruct (get_recommendations_ai_art_math sample_profiles "test_student" None
              sample_profile eq_refl eq_refl eq_refl)
    as (r1 & r2 & r3 & r4 & r5 & r6 & Hret & _ & _ & _ & _ & _ & Hscores & _).
  exists [r1; r2; r3; r4; r5; r6]. split; [exact Hret|].
  split; [reflexivity|exact Hscores].
Defined.

(** C5 as stated fails on distinctness: the two interest entries carry the
    same relevance score, so the six scores are not pairwise distinct. *)
Lemma get_recommendations_scores_not_distinct :
  exists recs,
    get_recommendations sample_profiles "test_student" None = Ret recs /\
    List.length recs = 6%nat /\
    ~ NoDup (map relevance_score recs).
Proof.
  eexists. split; [reflexivity|]. split; [reflexivity|].
  simpl. intros Hnd. inversion Hnd as [|? ? Hnotin _]; subst.
  apply Hnotin. now left.
Qed.

End LearningFacts.

(* ================================================================= *)
(** ** The art gallery *)

Module ArtFacts.

Import Art Samples.

Lemma popularity_score_piece (a : ArtPiece) :
  popularity (score_piece a) = popularity a.
Proof. reflexivity. Qed.

Lemma popularity_key_score_piece (a : ArtPiece) :
  popularity_key (score_piece a) = popularity a.
Proof. reflexivity. Qed.

Lemma score_piece_frame (a : ArtPiece) :
  same_but_popularity_score a (score_piece a) /\
  popularity_score (score_piece a) = Some (popularity a).
Proof. unfold same_but_popularity_score. repeat split. Qed.

(** The store after the scoring loop. *)
Lemma scored_store (gallery : Gallery) (limit : Z) :
  fst (get_popular_art gallery limit)
  = map (fun kv => (fst kv, score_piece (snd kv))) gallery.
Proof. reflexivity. Qed.

Lemma lookup_scored (gallery : Gallery) (art_id : string) :
  lookup art_id (map (fun kv => (fst kv, score_piece (snd kv))) gallery)
  = option_map score_piece (lookup art_id gallery).
Proof.
  induction gallery as [|[k v] gallery IH]; simpl; [reflexivity|].
  destruct (String.eqb art_id k); [reflexivity|exact IH].
Qed.

(** The returned list: the stored pieces ranked by popularity, each with its
    score written on it, cut by the slice. *)
Lemma get_popular_art_ranked (gallery : Gallery) (limit : Z) :
  snd (get_popular_art gallery limit)
  = slice_to limit (map score_piece (sort_desc popularity (values gallery))).
Proof.
  unfold get_popular_art. simpl snd. f_equal.
  unfold values. rewrite map_map. simpl.
  rewrite <- (map_map snd score_piece).
  unfold sort_desc. apply stable_sort_map.
  intros a b. now rewrite !popularity_key_score_piece.
Qed.

(** C3 (as amended): for a limit that is not negative [get_popular_art]
    returns at most [limit] pieces, in descending order of
    [likes*2 + views*0.1]; they are the first [limit] of a ranking of the
    gallery in which pieces of equal popularity keep the relative order they
    have in the gallery. *)
Theorem get_popular_art_top_sorted_stable (gallery : Gallery) (limit : Z) :
  (0 <= limit)%Z ->
  exists ranked,
    snd (get_popular_art gallery limit)
      = map score_piece (firstn (Z.to_nat limit) ranked) /\
    (Z.of_nat (List.length (snd (get_popular_art gallery limit))) <= limit)%Z /\
    StronglySorted (fun a b => popularity b <= popularity a)
                   (snd (get_popular_art gallery limit)) /\
    Permutation ranked (values gallery) /\
    StronglySorted (fun a b => popularity b <= popularity a) ranked /\
    (forall r, with_key popularity r ranked = with_key popularity r (values gallery)).
Proof.
  intros Hlimit.
  exists (sort_desc popularity (values gallery)).
  rewrite get_popular_art_ranked.
  assert (Hslice : forall A (l : list A),
             slice_to limit l = firstn (Z.to_nat limit) l).
  { intros A l. unfold slice_to.
    destruct (0 <=? limit)%Z eqn:E; [reflexivity|lia]. }
  split; [now rewrite Hslice, firstn_map|].
  split; [now apply slice_to_nonneg_length|].
  split.
  - rewrite Hslice, firstn_map.
    apply (StronglySorted_map score_piece (ge_key popularity)).
    + intros a b Hab. now rewrite !popularity_score_piece.
    + apply firstn_sorted, sort_desc_sorted.
  - split; [apply sort_desc_perm|].
    split; [apply sort_desc_sorted|].
    intros r. apply sort_desc_stable.
Qed.

Lemma get_popular_art_top_sorted_stable_witness :
  (Z.of_nat (List.length (snd (get_popular_art sample_gallery 1))) <= 1)%Z /\
  map id (snd (get_popular_art sample_gallery 1)) = ["art_2"].
Proof.
  destruct (get_popular_art_top_sorted_stable sample_gallery 1 ltac:(lia))
    as (ranked & Hres & Hlen & _).
  split; [exact Hlen|reflexivity].
Defined.

(** C3 as stated fails for a negative limit: with two pieces stored,
    [get_popular_art(-1)] returns one piece, which is more than -1. *)
Lemma get_popular_art_negative_limit :
  List.length (snd (get_popular_art sample_gallery (-1))) = 1%nat /\
  ~ (Z.of_nat (List.length (snd (get_popular_art sample_gallery (-1)))) <= -1)%Z.
Proof.
  split; [reflexivity|]. vm_compute. intros H. now apply H.
Qed.

(** The ranking follows the float scores: [2 + 3 * 0.1] rounds to the float
    2.3 and [0 + 23 * 0.1] to 2.3000000000000003, so the piece stored second
    is returned first. *)
Lemma get_popular_art_follows_float_scores :
  popularity (sample_piece "art_a" 1 3)
  = 2589569785738035 # 1125899906842624 /\
  popularity (sample_piece "art_b" 0 23)
  = 5179139571476071 # 2251799813685248 /\
  map id (snd (get_popular_art close_gallery 10)) = ["art_b"; "art_a"].
Proof. vm_compute. repeat split. Qed.

(** C6 (as amended): [get_popular_art] keeps the ids of the gallery and their
    order, and leaves every field of every stored piece as it was except
    [popularity_score], which it sets on each stored piece to
    [likes*2 + views*0.1]. *)
Theorem get_popular_art_writes_only_popularity_score (gallery : Gallery) (limit : Z) :
  map fst (fst (get_popular_art gallery limit)) = map fst gallery /\
  (forall art_id,
      lookup art_id (fst (get_popular_art gallery limit))
      = option_map score_piece (lookup art_id gallery)) /\
  (forall a,
      same_but_popularity_score a (score_piece a) /\
      popularity_score (score_piece a) = Some (popularity a)).
Proof.
  rewrite scored_store. split; [|split].
  - rewrite map_map. reflexivity.
  - intros art_id. apply lookup_scored.
  - apply score_piece_frame.
Qed.

(** C6 as stated fails: after one call the piece stored under "art_1", which
    had no [popularity_score], carries the score 7. *)
Lemma get_popular_art_mutates_store :
  fst (get_popular_art sample_gallery 10) <> sample_gallery /\
  exists before after,
    lookup "art_1" sample_gallery = Some before /\
    lookup "art_1" (fst (get_popular_art sample_gallery 10)) = Some after /\
    popularity_score before = None /\
    popularity_score after = Some (popularity before) /\
    popularity before == 7 /\
    after <> before.
Proof.
  split; [discriminate|].
  eexists _, _. repeat split; try reflexivity. discriminate.
Qed.

(** What one [view_art] call does to a stored piece. *)
Lemma view_art_stored gallery art_id uid piece :
  lookup art_id gallery = Some piece ->
  view_art gallery art_id uid
  = Ret (assign art_id (set_views (views piece + 1) piece) gallery,
         set_views (views piece + 1) piece).
Proof. intros Hl. unfold view_art. now rewrite Hl. Qed.

Lemma set_views_frame (v : Z) (a : ArtPiece) :
  same_but_views a (set_views v a) /\ views (set_views v a) = v.
Proof. unfold same_but_views. repeat split. Qed.

(** C7: on a stored piece each [view_art] call adds exactly 1 to [views] and
    changes no other field of the piece ([likes] and [updated_at] included)
    and no other piece; two calls add exactly 2. *)
Theorem view_art_increments_views_only gallery art_id uid uid' piece :
  lookup art_id gallery = Some piece ->
  exists g1 p1 g2 p2,
    view_art gallery art_id uid = Ret (g1, p1) /\
    lookup art_id g1 = Some p1 /\
    views p1 = (views piece + 1)%Z /\
    likes p1 = likes piece /\
    updated_at p1 = updated_at piece /\
    same_but_views piece p1 /\
    (forall other, other <> art_id -> lookup other g1 = lookup other gallery) /\
    map fst g1 = map fst gallery /\
    view_art g1 art_id uid' = Ret (g2, p2) /\
    lookup art_id g2 = Some p2 /\
    views p2 = (views piece + 2)%Z /\
    likes p2 = likes piece /\
    updated_at p2 = updated_at piece /\
    same_but_views piece p2 /\
    (forall other, other <> art_id -> lookup other g2 = lookup other gallery).
Proof.
  intros Hl.
  pose (p1 := set_views (views piece + 1) piece).
  pose (g1 := assign art_id p1 gallery).
  assert (Hl1 : lookup art_id g1 = Some p1) by apply lookup_assign_same.
  exists g1, p1, (assign art_id (set_views (views p1 + 1) p1) g1),
         (set_views (views p1 + 1) p1).
  split; [now apply view_art_stored|].
  split; [exact Hl1|].
  split; [reflexivity|]. split; [reflexivity|]. split; [reflexivity|].
  split; [apply set_views_frame|].
  split; [intros other Ho; now apply lookup_assign_other|].
  split; [now apply assign_keys with (v0 := piece)|].
  split; [now apply view_art_stored|].
  split; [apply lookup_assign_same|].
  split; [simpl; lia|]. split; [reflexivity|]. split; [reflexivity|].
  split; [unfold same_but_views; repeat split|].
  intros other Ho. rewrite lookup_assign_other by exact Ho.
  now apply lookup_assign_other.
Qed.

Lemma view_art_increments_views_only_witness :
  exists g1 p1 g2 p2,
    view_art sample_gallery "art_1" "demo_user" = Ret (g1, p1) /\
    views p1 = 11%Z /\ likes p1 = 3%Z /\ updated_at p1 = None /\
    view_art g1 "art_1" "demo_user" = Ret (g2, p2) /\
    views p2 = 12%Z /\ likes p2 = 3%Z /\ updated_at p2 = None.
Proof.
  destruct (view_art_increments_views_only sample_gallery "art_1" "demo_user"
              "demo_user" (sample_piece "art_1" 3 10) eq_refl)
    as (g1 & p1 & g2 & p2 & H1 & _ & Hv1 & Hk1 & Hu1 & _ & _ & _
        & H2 & _ & Hv2 & Hk2 & Hu2 & _).
  exists g1, p1, g2, p2. repeat split; assumption.
Defined.

End ArtFacts.

(* ================================================================= *)
(** ** The analytics engine *)

Module AnalyticsFacts.

Import Analytics Spec Samples.

Lemma filter_filter {A} (p q : A -> bool) (l : list A) :
  filter q (filter p l) = filter (fun a => p a && q a) l.
Proof.
  induction l as [|a l IH]; simpl; [reflexivity|].
  destruct (p a); simpl; [|exact IH].
  destruct (q a); now rewrite IH.
Qed.

Lemma count_in_window events now uid days name :
  List.length
    (filter (has_type name)
            (filter (in_window uid (now - timedelta_days days)%Z) events))
  = events_in_window events now uid days name.
Proof. now rewrite filter_filter. Qed.

Lemma completion_rate_counts (events : list Event) :
  _calculate_completion_rate events
  = if (List.length (filter (has_type "module_started") events) =? 0)%nat
    then 0
    else (len (filter (has_type "module_completed") events)
          / len (filter (has_type "module_started") events)) * 100.
Proof.
  unfold _calculate_completion_rate.
  now destruct (filter (has_type "module_started") events).
Qed.

(** C8 (as amended): the completion rate reported by
    [calculate_user_metrics] is the ratio of the user's [module_completed]
    events to the user's [module_started] events in the trailing window,
    multiplied by 100; it is 0 when the window holds no [module_started]
    event. *)
Theorem completion_rate_is_percentage events now uid days :
  let started := events_in_window events now uid days "module_started" in
  let completed := events_in_window events now uid days "module_completed" in
  completion_rate (calculate_user_metrics events now uid days)
  = if (started =? 0)%nat then 0
    else (inject_Z (Z.of_nat completed) / inject_Z (Z.of_nat started)) * 100.
Proof.
  cbv zeta. unfold calculate_user_metrics. simpl completion_rate.
  rewrite completion_rate_counts. unfold len.
  now rewrite !count_in_window.
Qed.

(** C8 as stated fails: one module started and completed in the window has
    ratio 1, and the reported completion rate is 100. *)
Lemma completion_rate_not_ratio :
  events_in_window module_log sample_now "demo_user" 30 "module_started" = 1%nat /\
  events_in_window module_log sample_now "demo_user" 30 "module_completed" = 1%nat /\
  completion_rate (calculate_user_metrics module_log sample_now "demo_user" 30) == 100 /\
  ~ completion_rate (calculate_user_metrics module_log sample_now "demo_user" 30)
    == 1 # 1.
Proof.
  split; [reflexivity|]. split; [reflexivity|]. split; [reflexivity|].
  discriminate.
Qed.

Lemma slice_last_all {A} (n : nat) (l : list A) :
  List.length l = n -> slice_last n l = l.
Proof. intros H. unfold slice_last. rewrite H, Nat.sub_diag. reflexivity. Qed.

Lemma firstn_exact {A} (n : nat) (l : list A) :
  List.length l = n -> firstn n l = l.
Proof. intros <-. apply firstn_all. Qed.

(** With exactly three quizzes the recent and the early scores are the same
    three scores. *)
Lemma _is_improving_three (events : list Event) :
  List.length (filter (has_type "quiz_completed") events) = 3%nat ->
  _is_improving events = false.
Proof.
  intros H3. unfold _is_improving. rewrite H3. simpl Nat.ltb. cbv iota.
  assert (Hlen : List.length
                   (sort_asc timestamp (filter (has_type "quiz_completed") events))
                 = 3%nat).
  { unfold sort_asc. now rewrite stable_sort_length. }
  rewrite (slice_last_all 3 _ Hlen), (firstn_exact 3 _ Hlen).
  apply Qltb_irrefl.
Qed.

(** C10: when the user has exactly three [quiz_completed] events,
    [generate_insights] returns no "Improving Performance" insight. *)
Theorem generate_insights_three_quizzes_not_improving events uid :
  List.length
    (filter (has_type "quiz_completed")
            (filter (fun e => String.eqb (user_id e) uid) events)) = 3%nat ->
  _is_improving (filter (fun e => String.eqb (user_id e) uid) events) = false /\
  ~ In improving_insight (generate_insights events uid) /\
  forall insight,
    In insight (generate_insights events uid) ->
    i_title insight <> "Improving Performance".
Proof.
  intros H3. apply _is_improving_three in H3.
  split; [exact H3|].
  unfold generate_insights. rewrite H3.
  destruct (_is_night_learner _); simpl.
  - split.
    + intros [H|[]]. discriminate H.
    + intros insight [<-|[]]. discriminate.
  - split; [tauto|]. intros insight [].
Qed.

Lemma generate_insights_three_quizzes_not_improving_witness :
  map (data_get "score")
      (filter (has_type "quiz_completed")
              (filter (fun e => String.eqb (user_id e) "demo_user") quiz_log))
  = [60; 70; 95] /\
  ~ In improving_insight (generate_insights quiz_log "demo_user").
Proof.
  split; [reflexivity|].
  apply (generate_insights_three_quizzes_not_improving quiz_log "demo_user").
  reflexivity.
Defined.

End AnalyticsFacts.

(* ================================================================= *)
(** ** The hub connector *)

Module HubFacts.

Import Hub Samples.

Section Fallbacks.

Variable str_title : string -> string.
Variable iso_hour : string -> option Z.

Lemma hour_counts_returns (learning_data : list Session) (counts : list (Z * Z)) :
  Forall (readable iso_hour) learning_data ->
  exists counts', hour_counts iso_hour learning_data counts = Ret counts'.
Proof.
  intros Hall. revert counts.
  induction Hall as [|session rest Hr _ IH]; intros counts; simpl; [eauto|].
  destruct (String.eqb (get (timestamp session) "") "") eqn:E; [apply IH|].
  destruct Hr as [Hr|Hr].
  - apply String.eqb_eq in Hr. congruence.
  - destruct (iso_hour (get (timestamp session) "")); [apply IH|congruence].
Qed.

Lemma _find_most_active_hour_returns (learning_data : list Session) :
  Forall (readable iso_hour) learning_data ->
  exists h, _find_most_active_hour iso_hour learning_data = Ret h.
Proof.
  intros Hall. unfold _find_most_active_hour.
  destruct learning_data as [|s rest]; [eauto|].
  destruct (hour_counts_returns (s :: rest) [] Hall) as (counts & ->).
  simpl. destruct counts; eauto.
Qed.

(** Whatever the fallback analysis returns for a non-empty input is marked. *)
Lemma fallback_analysis_marked (learning_data : list Session) (d : dict) :
  learning_data <> [] ->
  _generate_fallback_analysis iso_hour learning_data = Ret d ->
  lookup "source" d = Some (PStr "fallback") /\
  lookup "confidence_level" d = Some (PNum 0.6).
Proof.
  intros Hne. unfold _generate_fallback_analysis.
  destruct learning_data as [|s rest]; [contradiction|].
  destruct (_find_most_active_hour iso_hour (s :: rest)); simpl; [|discriminate].
  intros [= <-]. split; reflexivity.
Qed.

Lemma fallback_analysis_returns (learning_data : list Session) :
  Forall (readable iso_hour) learning_data ->
  exists d, _generate_fallback_analysis iso_hour learning_data = Ret d.
Proof.
  intros Hall. unfold _generate_fallback_analysis.
  destruct learning_data as [|s rest]; [eauto|].
  destruct (_find_most_active_hour_returns (s :: rest) Hall) as (h & ->).
  simpl. eauto.
Qed.

Lemma fallback_recommendations_marked (student_profile : StudentProfile) :
  Forall (fun d => lookup "source" d = Some (PStr "fallback") /\
                   lookup "confidence_score" d = Some (PNum 0.75))
         (_generate_fallback_recommendations str_title student_profile).
Proof.
  unfold _generate_fallback_recommendations.
  apply Forall_forall. intros d Hd. apply in_map_iff in Hd.
  destruct Hd as (interest & <- & _). split; reflexivity.
Qed.

Lemma fallback_content_marked (content_preferences : ContentPreferences) :
  Forall (fun d => lookup "source" d = Some (PStr "fallback") /\
                   lookup "confidence_score" d = None /\
                   lookup "confidence_level" d = None)
         (_generate_fallback_content str_title content_preferences).
Proof.
  unfold _generate_fallback_content.
  apply Forall_forall. intros d Hd. apply in_map_iff in Hd.
  destruct Hd as (interest & <- & _). repeat split; reflexivity.
Qed.

(** C9 (as amended): when the hub call ends in a [RequestException] no
    operation passes that exception on; each returns its local fallback.
    Every fallback recommendation carries source "fallback" and confidence
    0.75; the fallback prediction carries source "fallback" and confidence
    0.5; every fallback content item carries source "fallback" and no
    confidence entry; the fallback analysis of a non-empty [learning_data]
    whose timestamps are readable carries source "fallback" and confidence
    0.6, and the fallback analysis of an empty [learning_data] is
    [{"status": "insufficient_data"}], without a source entry. *)
Theorem request_failure_yields_fallback :
  (forall student_profile context msg,
      exists items,
        get_learning_recommendations str_title student_profile context
                                     (RequestException msg)
          = Ret (PList (map PDict items)) /\
        Forall (fun d => lookup "source" d = Some (PStr "fallback") /\
                         lookup "confidence_score" d = Some (PNum 0.75)) items) /\
  (forall student_id learning_data msg,
      learning_data <> [] ->
      Forall (readable iso_hour) learning_data ->
      exists d,
        analyze_learning_pattern iso_hour student_id learning_data
                                 (RequestException msg) = Ret (PDict d) /\
        lookup "source" d = Some (PStr "fallback") /\
        lookup "confidence_level" d = Some (PNum 0.6)) /\
  (forall student_id msg,
      analyze_learning_pattern iso_hour student_id [] (RequestException msg)
      = Ret (PDict [("status", PStr "insufficient_data")])) /\
  (forall student_profile learning_path msg,
      exists d,
        predict_learning_outcomes student_profile learning_path
                                  (RequestException msg) = Ret (PDict d) /\
        lookup "source" d = Some (PStr "fallback") /\
        lookup "confidence_level" d = Some (PNum 0.5)) /\
  (forall student_id content_preferences msg,
      exists items,
        get_personalized_content str_title student_id content_preferences
                                 (RequestException msg)
          = Ret (PList (map PDict items)) /\
        Forall (fun d => lookup "source" d = Some (PStr "fallback") /\
                         lookup "confidence_score" d = None /\
                         lookup "confidence_level" d = None) items).
Proof.
  split; [|split; [|split; [|split]]].
  - intros student_profile context msg.
    eexists. split; [reflexivity|]. apply fallback_recommendations_marked.
  - intros student_id learning_data msg Hne Hall.
    destruct (fallback_analysis_returns learning_data Hall) as (d & Hd).
    exists d. unfold analyze_learning_pattern. rewrite Hd.
    split; [reflexivity|]. now apply (fallback_analysis_marked learning_data).
  - reflexivity.
  - intros student_profile learning_path msg.
    eexists. split; [reflexivity|]. split; reflexivity.
  - intros student_id content_preferences msg.
    eexists. split; [reflexivity|]. apply fallback_content_marked.
Qed.

End Fallbacks.

Lemma sample_sessions_readable : Forall (readable ascii_iso_hour) sample_sessions.
Proof.
  unfold sample_sessions.
  constructor; [right; discriminate|].
  constructor; [left; reflexivity|constructor].
Defined.

Lemma request_failure_yields_fallback_witness :
  exists d,
    analyze_learning_pattern ascii_iso_hour "test_student" sample_sessions
                             (RequestException "timeout") = Ret (PDict d) /\
    lookup "source" d = Some (PStr "fallback") /\
    lookup "most_active_hour" d = Some (PInt 20).
Proof.
  destruct (request_failure_yields_fallback ascii_title ascii_iso_hour)
    as (_ & Han & _).
  destruct (Han "test_student" sample_sessions "timeout"
                ltac:(discriminate) sample_sessions_readable)
    as (d & Hret & Hsrc & _).
  exists d. split; [exact Hret|]. split; [exact Hsrc|].
  vm_compute in Hret. injection Hret as <-. reflexivity.
Defined.

(** C9 as stated fails for [analyze_learning_pattern] on an empty
    [learning_data]: after a timeout the caller gets
    [{"status": "insufficient_data"}], which has no source entry. *)
Lemma empty_analysis_fallback_unmarked :
  exists d,
    analyze_learning_pattern ascii_iso_hour "test_student" []
                             (RequestException "timeout") = Ret (PDict d) /\
    d = [("status", PStr "insufficient_data")] /\
    lookup "source" d = None /\
    lookup "confidence_level" d = None.
Proof.
  eexists. split; [reflexivity|]. repeat split.
Qed.

End HubFacts.

(* ================================================================= *)
(** ** The learning engine: profiles, paths and predictions *)

Module LearningExtra.

Import Learning Spec Samples.

(** X1: [analyze_performance] appends the record it returns to the history
    of the analysed student and stamps [updated_at]; the student's other
    fields, the other profiles and the order of the store stay as they
    were. *)
Theorem analyze_performance_appends_history profiles t1 t2 sid pd profile :
  lookup sid profiles = Some profile ->
  exists st a profile',
    analyze_performance profiles t1 t2 sid pd = Ret (st, a) /\
    lookup sid st = Some profile' /\
    progress_history profile' = (progress_history profile ++ [a])%list /\
    updated_at profile' = t2 /\
    created_at profile' = created_at profile /\
    student_id profile' = student_id profile /\
    learning_style profile' = learning_style profile /\
    skill_level profile' = skill_level profile /\
    interests profile' = interests profile /\
    goals profile' = goals profile /\
    strengths profile' = strengths profile /\
    weaknesses profile' = weaknesses profile /\
    a_student_id a = sid /\
    analyzed_at a = t1 /\
    (forall other, other <> sid -> lookup other st = lookup other profiles) /\
    map fst st = map fst profiles.
Proof.
  intros Hl. unfold analyze_performance. rewrite Hl.
  eexists _, _, _. split; [reflexivity|].
  split; [apply lookup_assign_same|].
  repeat (split; [reflexivity|]).
  split.
  - intros other Ho. now apply lookup_assign_other.
  - now apply assign_keys with (v0 := profile).
Qed.

Lemma analyze_performance_appends_history_witness :
  exists st a profile',
    analyze_performance sample_profiles 1%Z 2%Z "test_student" performance_expert
      = Ret (st, a) /\
    lookup "test_student" st = Some profile' /\
    progress_history profile' = [a] /\
    updated_at profile' = 2%Z.
Proof.
  destruct (analyze_performance_appends_history sample_profiles 1%Z 2%Z
              "test_student" performance_expert sample_profile eq_refl)
    as (st & a & p' & Hret & Hl & Hh & Hu & _).
  exists st, a, p'. repeat split; assumption.
Defined.

(** X2: for a student id that is not stored, [analyze_performance],
    [generate_learning_path], [get_recommendations] and [predict_outcomes]
    all raise the same error, "Student <id> not found". *)
Theorem unknown_student_raises profiles sid :
  lookup sid profiles = None ->
  (forall t1 t2 pd,
      analyze_performance profiles t1 t2 sid pd
      = Raise ("Student " ++ sid ++ " not found")) /\
  (forall paths now subject goals,
      generate_learning_path profiles paths now sid subject goals
      = Raise ("Student " ++ sid ++ " not found")) /\
  (forall context,
      get_recommendations profiles sid context
      = Raise ("Student " ++ sid ++ " not found")) /\
  (forall u1 u2 u3 learning_path,
      predict_outcomes profiles u1 u2 u3 sid learning_path
      = Raise ("Student " ++ sid ++ " not found")).
Proof.
  intros Hl.
  unfold analyze_performance, generate_learning_path, get_recommendations,
    predict_outcomes.
  rewrite Hl. repeat split.
Qed.

Lemma unknown_student_raises_witness :
  get_recommendations sample_profiles "nobody" None
  = Raise "Student nobody not found".
Proof.
  destruct (unknown_student_raises sample_profiles "nobody" eq_refl)
    as (_ & _ & Hrec & _).
  apply Hrec.
Defined.

(** X3: [create_student_profile] stores a profile with an empty history
    under the given id, replacing whatever was stored there (an earlier
    history is lost), and touches no other profile; [analyze_performance]
    on the fresh profile gives it a history of exactly one record. *)
Theorem create_student_profile_resets profiles t1 t2 sid data :
  let st := fst (create_student_profile profiles t1 t2 sid data) in
  let profile := snd (create_student_profile profiles t1 t2 sid data) in
  lookup sid st = Some profile /\
  student_id profile = sid /\
  progress_history profile = [] /\
  (forall other, other <> sid -> lookup other st = lookup other profiles) /\
  (forall t3 t4 pd,
      exists st' a profile',
        analyze_performance st t3 t4 sid pd = Ret (st', a) /\
        lookup sid st' = Some profile' /\
        progress_history profile' = [a]).
Proof.
  cbv zeta. unfold create_student_profile. simpl fst. simpl snd.
  split; [apply lookup_assign_same|].
  split; [reflexivity|]. split; [reflexivity|].
  split; [intros other Ho; now apply lookup_assign_other|].
  intros t3 t4 pd. unfold analyze_performance.
  rewrite lookup_assign_same.
  eexists _, _, _. split; [reflexivity|].
  split; [apply lookup_assign_same|reflexivity].
Qed.

Lemma firstn_app_short {A} (n : nat) (l1 l2 : list A) :
  (n <= List.length l1)%nat -> firstn n (l1 ++ l2)%list = firstn n l1.
Proof.
  intros Hn. rewrite firstn_app.
  replace (n - List.length l1)%nat with 0%nat by lia.
  simpl. apply app_nil_r.
Qed.

(** X4: for a stored profile [get_recommendations] returns
    min(10, interests + weaknesses + 3) entries. *)
Theorem get_recommendations_count profiles sid context profile :
  lookup sid profiles = Some profile ->
  exists recs,
    get_recommendations profiles sid context = Ret recs /\
    List.length recs
    = Nat.min 10 (List.length (interests profile)
                  + List.length (weaknesses profile) + 3).
Proof.
  intros Hl.
  destruct (LearningFacts.get_recommendations_stored profiles sid context profile Hl)
    as (Hret & _).
  eexists. split; [exact Hret|].
  rewrite length_firstn. unfold merged, _recommend_content.
  rewrite !length_app, !length_map. simpl. lia.
Qed.

Lemma get_recommendations_count_witness :
  exists recs,
    get_recommendations crowded_profiles "busy_student" None = Ret recs /\
    List.length recs = 10%nat.
Proof.
  destruct (get_recommendations_count crowded_profiles "busy_student" None
              crowded_profile eq_refl) as (recs & Hret & Hlen).
  exists recs. split; [exact Hret|exact Hlen].
Defined.

(** X5: with ten or more interests the ten entries returned are the
    entries of the first ten interests: no weakness, activity or peer entry
    is ever returned. *)
Theorem get_recommendations_interests_crowd_out profiles sid context profile :
  lookup sid profiles = Some profile ->
  (10 <= List.length (interests profile))%nat ->
  get_recommendations profiles sid context
  = Ret (map interest_entry (firstn 10 (interests profile))).
Proof.
  intros Hl Hlen.
  destruct (LearningFacts.get_recommendations_stored profiles sid context profile Hl)
    as (Hret & _).
  rewrite Hret. f_equal. unfold merged, _recommend_content.
  rewrite <- app_assoc, firstn_app_short by (rewrite length_map; exact Hlen).
  apply firstn_map.
Qed.

Lemma get_recommendations_interests_crowd_out_witness :
  exists recs,
    get_recommendations crowded_profiles "busy_student" None = Ret recs /\
    map title recs
    = ["Advanced a"; "Advanced b"; "Advanced c"; "Advanced d"; "Advanced e";
       "Advanced f"; "Advanced g"; "Advanced h"; "Advanced i"; "Advanced j"].
Proof.
  eexists. split.
  - apply (get_recommendations_interests_crowd_out crowded_profiles
             "busy_student" None crowded_profile eq_refl).
    simpl. lia.
  - reflexivity.
Defined.

Lemma create_student_profile_resets_witness :
  exists profile,
    lookup "test_student"
           (fst (create_student_profile sample_profiles 5%Z 6%Z "test_student"
                                        sample_profile_data)) = Some profile /\
    progress_history profile = [] /\
    learning_style profile = "auditory" /\
    skill_level profile = "beginner".
Proof.
  destruct (create_student_profile_resets sample_profiles 5%Z 6%Z "test_student"
              sample_profile_data) as (Hl & _ & Hh & _).
  eexists. split; [exact Hl|]. split; [exact Hh|]. split; reflexivity.
Defined.

(** What [generate_learning_path] returns for a stored profile. *)
Lemma generate_learning_path_stored profiles paths now sid subject goals profile :
  lookup sid profiles = Some profile ->
  exists lp,
    generate_learning_path profiles paths now sid subject goals
      = Ret (assign (path_key sid subject) lp paths, lp) /\
    modules lp = _create_learning_modules profile subject goals /\
    estimated_duration lp = _estimate_duration profile subject /\
    difficulty_progression lp = _create_difficulty_progression profile.
Proof.
  intros Hl. unfold generate_learning_path. rewrite Hl.
  eexists. split; [reflexivity|]. repeat split.
Qed.

(** X6: the path built by [generate_learning_path] holds exactly two
    modules when the learning style is "visual" or "auditory" and none for
    any other style; the five baseline modules (types video, interactive,
    exercise, reading, project) are never part of it. *)
Theorem generate_learning_path_modules profiles paths now sid subject goals profile :
  lookup sid profiles = Some profile ->
  exists paths' lp,
    generate_learning_path profiles paths now sid subject goals = Ret (paths', lp) /\
    List.length (modules lp)
    = (if String.eqb (learning_style profile) "visual"
          || String.eqb (learning_style profile) "auditory"
       then 2 else 0)%nat /\
    forall m, In m (modules lp) ->
              In (m_type m) ["infographic"; "visual"; "audio"; "podcast"] /\
              ~ In (m_type m) ["video"; "interactive"; "exercise"; "reading"; "project"].
Proof.
  intros Hl.
  destruct (generate_learning_path_stored profiles paths now sid subject goals
              profile Hl) as (lp & Hret & Hm & _).
  eexists _, lp. split; [exact Hret|]. rewrite Hm.
  unfold _create_learning_modules.
  destruct (String.eqb (learning_style profile) "visual");
    [|destruct (String.eqb (learning_style profile) "auditory")]; simpl.
  - split; [reflexivity|].
    intros m [<-|[<-|[]]]; simpl; split; auto 6;
      intros H; repeat (destruct H as [H|H]; [discriminate H|]); exact H.
  - split; [reflexivity|].
    intros m [<-|[<-|[]]]; simpl; split; auto 6;
      intros H; repeat (destruct H as [H|H]; [discriminate H|]); exact H.
  - split; [reflexivity|]. intros m [].
Qed.

Lemma generate_learning_path_modules_witness :
  exists paths' lp,
    generate_learning_path sample_profiles [] 7%Z "test_student" "Python" ["basics"]
      = Ret (paths', lp) /\
    map m_name (modules lp) = ["Visual Guide to Python"; "Python Diagrams & Charts"].
Proof.
  destruct (generate_learning_path_modules sample_profiles [] 7%Z "test_student"
              "Python" ["basics"] sample_profile eq_refl)
    as (paths' & lp & Hret & _).
  exists paths', lp. split; [exact Hret|].
  vm_compute in Hret. injection Hret as _ <-. reflexivity.
Defined.

Lemma _estimate_duration_values (profile : Profile) (subject : string) :
  In (_estimate_duration profile subject) [60; 40; 32; 24]%Z.
Proof.
  unfold _estimate_duration, skill_multipliers. simpl.
  repeat match goal with
         | |- context [String.eqb ?a ?b] => destruct (String.eqb a b)
         end; vm_compute; tauto.
Qed.

(** X7: the estimated duration of a generated path lies between 24 and 60
    hours, so [predict_outcomes] applied to a generated path never reports
    the risk "Long learning duration may impact completion", whose
    threshold is a duration above 60. *)
Theorem generated_path_never_long profiles paths now sid subject goals profile :
  lookup sid profiles = Some profile ->
  exists paths' lp,
    generate_learning_path profiles paths now sid subject goals = Ret (paths', lp) /\
    (24 <= estimated_duration lp <= 60)%Z /\
    forall u1 u2 u3,
    exists prediction,
      predict_outcomes profiles u1 u2 u3 sid (path_dict lp) = Ret prediction /\
      ~ In "Long learning duration may impact completion" (risk_factors prediction) /\
      estimated_time prediction = inject_Z (estimated_duration lp) * u3.
Proof.
  intros Hl.
  destruct (generate_learning_path_stored profiles paths now sid subject goals
              profile Hl) as (lp & Hret & _ & Hd & _).
  eexists _, lp. split; [exact Hret|].
  assert (Hrange : (24 <= estimated_duration lp <= 60)%Z).
  { rewrite Hd.
    pose proof (_estimate_duration_values profile subject) as Hin.
    simpl in Hin. lia. }
  split; [exact Hrange|].
  intros u1 u2 u3. unfold predict_outcomes. rewrite Hl.
  eexists. split; [reflexivity|]. simpl. split; [|reflexivity].
  unfold _identify_risk_factors. simpl.
  assert (Hle : Qltb 60 (inject_Z (estimated_duration lp)) = false).
  { apply Qltb_ge. change 60 with (inject_Z 60). rewrite <- Zle_Qle. lia. }
  rewrite Hle. simpl.
  destruct (3 <? List.length (weaknesses profile))%nat; simpl.
  - intros [H|[]]. discriminate H.
  - tauto.
Qed.

Lemma generated_path_never_long_witness :
  exists paths' lp,
    generate_learning_path sample_profiles [] 7%Z "test_student" "Python" ["basics"]
      = Ret (paths', lp) /\
    estimated_duration lp = 60%Z.
Proof.
  destruct (generated_path_never_long sample_profiles [] 7%Z "test_student"
              "Python" ["basics"] sample_profile eq_refl)
    as (paths' & lp & Hret & _).
  exists paths', lp. split; [exact Hret|].
  vm_compute in Hret. injection Hret as _ <-. reflexivity.
Defined.

(** X8: the duration estimate never grows as the skill level advances from
    beginner through intermediate and advanced to expert. *)
Theorem _estimate_duration_decreases_with_skill (p1 p2 : Profile) (subject : string) :
  In (skill_level p1, skill_level p2)
     [ ("beginner", "intermediate"); ("intermediate", "advanced");
       ("advanced", "expert"); ("beginner", "advanced");
       ("beginner", "expert"); ("intermediate", "expert") ] ->
  (_estimate_duration p2 subject <= _estimate_duration p1 subject)%Z.
Proof.
  unfold _estimate_duration. intros Hin. simpl in Hin.
  repeat (destruct Hin as [Hin|Hin];
          [injection Hin as H1 H2; rewrite <- H1, <- H2; vm_compute;
           discriminate|]).
  contradiction.
Qed.

Lemma _estimate_duration_decreases_with_skill_witness :
  (_estimate_duration crowded_profile "Python"
   <= _estimate_duration sample_profile "Python")%Z.
Proof.
  apply (_estimate_duration_decreases_with_skill sample_profile crowded_profile).
  simpl. tauto.
Defined.

(** X9: the difficulty progression of any profile has four steps, never
    steps down in difficulty, and uses only labels of the multiplier table
    of the mastery computation. *)
Theorem _create_difficulty_progression_shape (profile : Profile) :
  List.length (_create_difficulty_progression profile) = 4%nat /\
  StronglySorted (fun a b => (difficulty_rank a <= difficulty_rank b)%nat)
                 (_create_difficulty_progression profile) /\
  Forall (fun label => lookup label difficulty_multipliers <> None)
         (_create_difficulty_progression profile).
Proof.
  unfold _create_difficulty_progression, progressions. simpl.
  repeat match goal with
         | |- context [String.eqb ?a ?b] => destruct (String.eqb a b)
         end; simpl;
    (split; [reflexivity|]; split;
     [repeat constructor; simpl; lia
     |repeat constructor; discriminate]).
Qed.

(** X10: a higher mastery level never leads to an easier suggested next
    difficulty. *)
Theorem _suggest_next_difficulty_monotone (m1 m2 : Q) :
  m1 <= m2 ->
  (difficulty_rank (_suggest_next_difficulty m1)
   <= difficulty_rank (_suggest_next_difficulty m2))%nat.
Proof.
  intros Hle. unfold _suggest_next_difficulty.
  repeat match goal with
         | |- context [Qltb ?a ?b] =>
             let E := fresh "E" in destruct (Qltb a b) eqn:E
         end;
    repeat match goal with
           | H : Qltb _ _ = true |- _ => apply Qltb_lt in H
           | H : Qltb _ _ = false |- _ => apply Qltb_ge in H
           end;
    first [ vm_compute; lia | exfalso; lra ].
Qed.

Lemma _suggest_next_difficulty_monotone_witness :
  (difficulty_rank (_suggest_next_difficulty 0.5)
   <= difficulty_rank (_suggest_next_difficulty 0.9))%nat.
Proof.
  apply _suggest_next_difficulty_monotone. discriminate.
Defined.

End LearningExtra.

(* ================================================================= *)
(** ** More facts about the built-ins *)

Module PyExtra.

Lemma assign_assign {V} (k : string) (v1 v2 : V) (d : list (string * V)) :
  assign k v2 (assign k v1 d) = assign k v2 d.
Proof.
  induction d as [|[k' v'] d IH]; simpl.
  - now rewrite String.eqb_refl.
  - destruct (String.eqb k k') eqn:E; simpl; rewrite E; [reflexivity|].
    now rewrite IH.
Qed.

Lemma lookup_none_assign {V} (k : string) (v : V) (d : list (string * V)) :
  lookup k d = None -> assign k v d = (d ++ [(k, v)])%list.
Proof.
  induction d as [|[k' v'] d IH]; simpl; [reflexivity|].
  destruct (String.eqb k k'); [discriminate|].
  intros H. now rewrite IH.
Qed.

Lemma in_values_lookup {V} (d : list (string * V)) (k : string) (v : V) :
  lookup k d = Some v -> In v (values d).
Proof.
  induction d as [|[k' v'] d IH]; simpl; [discriminate|].
  destruct (String.eqb k k'); [intros [= ->]; now left|].
  intros H. right. now apply IH.
Qed.

Section SortedBy.
Context {A : Type}.
Variable before : A -> A -> bool.
Variable R : A -> A -> Prop.
Hypothesis before_R : forall a b, before a b = true -> R a b.
Hypothesis not_before_R : forall a b, before a b = false -> R b a.
Hypothesis R_trans : forall a b c, R a b -> R b c -> R a c.

Lemma insert_sorted_by (x : A) (l : list A) :
  StronglySorted R l -> StronglySorted R (insert before x l).
Proof.
  induction 1 as [|y l Hs IH Hall]; simpl.
  - repeat constructor.
  - destruct (before y x) eqn:E.
    + constructor; [exact IH|].
      eapply Permutation_Forall; [symmetry; apply insert_perm|].
      constructor; [now apply before_R|exact Hall].
    + constructor; [now constructor|].
      constructor; [now apply not_before_R|].
      eapply Forall_impl; [|exact Hall].
      intros z Hz. eapply R_trans; [|exact Hz]. now apply not_before_R.
Qed.

Lemma stable_sort_sorted_by (l : list A) : StronglySorted R (stable_sort before l).
Proof.
  induction l as [|x l IH]; simpl; [constructor|].
  now apply insert_sorted_by.
Qed.

End SortedBy.

Lemma sort_desc_int_sorted {A} (key : A -> Z) (l : list A) :
  StronglySorted (fun a b => (key b <= key a)%Z) (sort_desc_int key l).
Proof.
  unfold sort_desc_int. apply stable_sort_sorted_by.
  - intros a b H. apply Z.ltb_lt in H. lia.
  - intros a b H. apply Z.ltb_ge in H. lia.
  - intros a b c H1 H2. lia.
Qed.

Lemma sort_desc_int_perm {A} (key : A -> Z) (l : list A) :
  Permutation (sort_desc_int key l) l.
Proof. apply stable_sort_perm. Qed.

Lemma sort_asc_sorted {A} (key : A -> Z) (l : list A) :
  StronglySorted (fun a b => (key a <= key b)%Z) (sort_asc key l).
Proof.
  unfold sort_asc. apply stable_sort_sorted_by.
  - intros a b H. apply Z.ltb_lt in H. lia.
  - intros a b H. apply Z.ltb_ge in H. lia.
  - intros a b c H1 H2. lia.
Qed.

End PyExtra.

Import PyExtra.

(* ================================================================= *)
(** ** The art gallery: listing, collections and generation *)

Module ArtExtra.

Import Art Spec Samples.

Lemma has_tag_In (tag : string) (art : ArtPiece) :
  has_tag tag art = true <-> In tag (tags art).
Proof.
  unfold has_tag. rewrite existsb_exists. split.
  - intros (x & Hx & E). apply String.eqb_eq in E. now subst.
  - intros H. exists tag. split; [exact H|apply String.eqb_refl].
Qed.

Lemma option_eqb_eq (a b : option string) : option_eqb a b = true <-> a = b.
Proof.
  destruct a as [x|], b as [y|]; simpl; try (split; [discriminate|discriminate]);
    try tauto.
  rewrite String.eqb_eq. split; [now intros ->|now intros [= ->]].
Qed.

Lemma tag_filters_In (wanted : list string) (pieces : list ArtPiece) (art : ArtPiece) :
  In art (fold_left (fun kept tag => filter (has_tag tag) kept) wanted pieces)
  <-> In art pieces /\ forall tag, In tag wanted -> In tag (tags art).
Proof.
  revert pieces. induction wanted as [|t wanted IH]; intros pieces; simpl.
  - split; [intros H; split; [exact H|intros tag []]|tauto].
  - rewrite IH, filter_In, has_tag_In. split.
    + intros [[Hin Ht] Hall]. split; [exact Hin|].
      intros tag [<-|Htag]; auto.
    + intros [Hin Hall]. repeat split; auto.
Qed.

Lemma optional_filter_In {B} (o : option B) (test : B -> ArtPiece -> bool)
      (P : B -> ArtPiece -> Prop) (pieces : list ArtPiece) (art : ArtPiece) :
  (forall w a, test w a = true <-> P w a) ->
  In art (match o with
          | Some w => filter (test w) pieces
          | None => pieces
          end)
  <-> In art pieces /\ forall w, o = Some w -> P w art.
Proof.
  intros Htest. destruct o as [w|].
  - rewrite filter_In, Htest. split.
    + intros [Hin Hp]. split; [exact Hin|]. now intros w' [= <-].
    + intros [Hin Hp]. split; [exact Hin|]. now apply Hp.
  - split; [intros H; split; [exact H|discriminate]|tauto].
Qed.

Lemma optional_tags_In (o : option (list string)) (pieces : list ArtPiece)
      (art : ArtPiece) :
  In art (match o with
          | Some wanted =>
              fold_left (fun kept tag => filter (has_tag tag) kept) wanted pieces
          | None => pieces
          end)
  <-> In art pieces /\
      forall wanted, o = Some wanted -> forall tag, In tag wanted -> In tag (tags art).
Proof.
  destruct o as [wanted|].
  - rewrite tag_filters_In. split.
    + intros [Hin Hp]. split; [exact Hin|]. now intros w' [= <-].
    + intros [Hin Hp]. split; [exact Hin|]. now apply Hp.
  - split; [intros H; split; [exact H|discriminate]|tauto].
Qed.

Lemma apply_filters_In (filters : Filters) (pieces : list ArtPiece) (art : ArtPiece) :
  In art (apply_filters filters pieces) <-> In art pieces /\ matches filters art.
Proof.
  unfold apply_filters, matches. cbv zeta.
  rewrite (optional_filter_In (f_featured filters)
             (fun w a => Bool.eqb (featured a) w) (fun w a => featured a = w))
    by (intros w a; apply Bool.eqb_true_iff).
  rewrite optional_tags_In.
  rewrite (optional_filter_In (f_user_id filters)
             (fun w a => option_eqb (user_id a) w) (fun w a => user_id a = w))
    by (intros w a; apply option_eqb_eq).
  rewrite (optional_filter_In (f_style filters)
             (fun w a => String.eqb (style a) w) (fun w a => style a = w))
    by (intros w a; apply String.eqb_eq).
  tauto.
Qed.

(** X11: [get_gallery] with filters returns exactly the stored pieces that
    agree with every filter given (style, user id, featured flag) and carry
    all the requested tags; without filters it returns every stored piece
    once.  In both cases the list is ordered by [created_at], newest
    first. *)
Theorem get_gallery_filters_and_order (gallery : Gallery) (filters : Filters) :
  (forall art,
      In art (get_gallery gallery (Some filters))
      <-> In art (values gallery) /\ matches filters art) /\
  Permutation (get_gallery gallery None) (values gallery) /\
  (forall selection,
      StronglySorted (fun a b => (created_at b <= created_at a)%Z)
                     (get_gallery gallery selection)).
Proof.
  split; [|split].
  - intros art. unfold get_gallery.
    rewrite <- apply_filters_In. split; intros H.
    + eapply Permutation_in; [apply sort_desc_int_perm|exact H].
    + eapply Permutation_in; [symmetry; apply sort_desc_int_perm|exact H].
  - apply sort_desc_int_perm.
  - intros selection. apply sort_desc_int_sorted.
Qed.

Lemma get_gallery_filters_and_order_witness :
  map id (get_gallery sample_gallery None) = ["art_1"; "art_2"] /\
  In (sample_piece "art_1" 3 10) (get_gallery sample_gallery (Some modern_only)).
Proof.
  split; [reflexivity|].
  apply (get_gallery_filters_and_order sample_gallery modern_only).
  split; [simpl; tauto|].
  unfold matches. simpl. repeat split.
  - now intros w [= <-].
  - discriminate.
  - intros w [= <-] tag [<-|[]]. simpl. tauto.
  - discriminate.
Defined.

(** X12: liking and viewing a stored piece commute: in either order the
    store ends up the same, with [likes] and [views] of the piece each
    raised by one and [updated_at] set by the like. *)
Theorem like_and_view_commute gallery now art_id uid uid' piece :
  lookup art_id gallery = Some piece ->
  exists g1 p1 g1' p1' g2 p2,
    like_art gallery now art_id uid = Ret (g1, p1) /\
    view_art g1 art_id uid' = Ret (g2, p2) /\
    view_art gallery art_id uid' = Ret (g1', p1') /\
    like_art g1' now art_id uid = Ret (g2, p2) /\
    lookup art_id g2 = Some p2 /\
    likes p2 = (likes piece + 1)%Z /\
    views p2 = (views piece + 1)%Z /\
    updated_at p2 = Some now.
Proof.
  intros Hl.
  eexists _, _, _, _, _, _.
  split; [unfold like_art; rewrite Hl; reflexivity|].
  split; [unfold view_art; rewrite lookup_assign_same, assign_assign; reflexivity|].
  split; [unfold view_art; rewrite Hl; reflexivity|].
  split; [unfold like_art; rewrite lookup_assign_same, assign_assign; reflexivity|].
  split; [apply lookup_assign_same|].
  repeat split.
Qed.

Lemma like_and_view_commute_witness :
  exists g1 p1 g2 p2,
    like_art sample_gallery 9%Z "art_1" "demo_user" = Ret (g1, p1) /\
    view_art g1 "art_1" "demo_user" = Ret (g2, p2) /\
    likes p2 = 4%Z /\ views p2 = 11%Z /\ updated_at p2 = Some 9%Z.
Proof.
  destruct (like_and_view_commute sample_gallery 9%Z "art_1" "demo_user"
              "demo_user" (sample_piece "art_1" 3 10) eq_refl)
    as (g1 & p1 & g1' & p1' & g2 & p2 & H1 & H2 & _ & _ & _ & Hk & Hv & Hu).
  exists g1, p1, g2, p2. repeat split; assumption.
Defined.

(** X13: for an id that is not stored, [like_art] and [view_art] raise
    "Art piece <id> not found", while [feature_art] and [get_art_piece]
    return nothing and leave the gallery as it is. *)
Theorem unknown_art_id gallery art_id :
  lookup art_id gallery = None ->
  (forall now uid,
      like_art gallery now art_id uid
      = Raise ("Art piece " ++ art_id ++ " not found")) /\
  (forall uid,
      view_art gallery art_id uid
      = Raise ("Art piece " ++ art_id ++ " not found")) /\
  (forall now flag, feature_art gallery now art_id flag = (gallery, None)) /\
  get_art_piece gallery art_id = None.
Proof.
  intros Hl. unfold like_art, view_art, feature_art, get_art_piece.
  rewrite Hl. repeat split.
Qed.

Lemma unknown_art_id_witness :
  view_art sample_gallery "art_9" "demo_user" = Raise "Art piece art_9 not found" /\
  feature_art sample_gallery 9%Z "art_9" true = (sample_gallery, None).
Proof.
  destruct (unknown_art_id sample_gallery "art_9" eq_refl) as (_ & Hv & Hf & _).
  split; [apply Hv|apply Hf].
Defined.

End ArtExtra.

(* ================================================================= *)
(** ** The art gallery: generation, tags, suggestions and collections *)

Module GeneratorFacts.

Import Art Spec Samples.

Section Generation.

Variable strftime : datetime -> string.
Variable str_split : string -> list string.
Variable str_lower : string -> string.
Variable str_title : string -> string.
Variable str_capitalize : string -> string.
Variable str_len : string -> Z.
Variable list_set : list string -> list string.

(** What is known of [list(set(l))]: it holds the elements of [l], each
    once. *)
Hypothesis list_set_In : forall l x, In x (list_set l) <-> In x l.
Hypothesis list_set_NoDup : forall l, NoDup (list_set l).

(** X14: [generate_art] stores the new piece under "art_<timestamp>" with no
    likes, no views, not featured and no [updated_at]; looking the id up
    returns that piece, every other id is untouched, the id is appended to
    the generation history, and a first [view_art] of the piece counts one
    view. *)
Theorem generate_art_stores_fresh_piece gallery history t_id t_created
        p_prompt p_style p_user :
  let '(gallery', history', piece) :=
    generate_art strftime str_split str_lower str_title str_capitalize
                 str_len list_set
                 gallery history t_id t_created p_prompt p_style p_user in
  id piece = "art_" ++ strftime t_id /\
  get_art_piece gallery' (id piece) = Some piece /\
  likes piece = 0%Z /\ views piece = 0%Z /\ featured piece = false /\
  updated_at piece = None /\
  prompt piece = p_prompt /\ style piece = p_style /\ user_id piece = p_user /\
  created_at piece = t_created /\
  history' = (history ++ [id piece])%list /\
  (forall other, other <> id piece ->
                 get_art_piece gallery' other = get_art_piece gallery other) /\
  (forall uid, exists g p,
      view_art gallery' (id piece) uid = Ret (g, p) /\ views p = 1%Z).
Proof.
  unfold generate_art, get_art_piece. cbv zeta. simpl id.
  split; [reflexivity|].
  split; [apply lookup_assign_same|].
  repeat (split; [reflexivity|]).
  split; [intros other Ho; now apply lookup_assign_other|].
  intros uid. unfold view_art. rewrite lookup_assign_same.
  eexists _, _. split; reflexivity.
Qed.

(** X15: two generations whose clock reads format to the same second share
    one id: the second piece replaces the first in the gallery (which keeps
    its size and order, so whatever the first piece had collected is gone)
    while the generation history lists the id twice. *)
Theorem generate_art_same_second_overwrites gallery history t1 c1 t2 c2
        prompt1 style1 user1 prompt2 style2 user2 :
  strftime t1 = strftime t2 ->
  let '(g1, h1, p1) :=
    generate_art strftime str_split str_lower str_title str_capitalize
                 str_len list_set
                 gallery history t1 c1 prompt1 style1 user1 in
  let '(g2, h2, p2) :=
    generate_art strftime str_split str_lower str_title str_capitalize
                 str_len list_set
                 g1 h1 t2 c2 prompt2 style2 user2 in
  id p2 = id p1 /\
  get_art_piece g2 (id p1) = Some p2 /\
  map fst g2 = map fst g1 /\
  List.length g2 = List.length g1 /\
  h2 = (history ++ [id p1; id p1])%list.
Proof.
  intros Hsame. unfold generate_art, get_art_piece. cbv zeta. simpl id.
  rewrite <- Hsame.
  split; [reflexivity|].
  split; [apply lookup_assign_same|].
  rewrite assign_assign.
  assert (Hkeys : forall (v1 v2 : ArtPiece) k (d : Gallery),
             map fst (assign k v2 d) = map fst (assign k v1 d)).
  { intros v1 v2 k d. induction d as [|[k' v'] d IH]; simpl; [reflexivity|].
    destruct (String.eqb k k'); simpl; [reflexivity|now rewrite IH]. }
  split; [apply Hkeys|].
  split.
  - rewrite <- (length_map fst), <- (length_map fst (assign _ _ gallery)).
    f_equal. apply Hkeys.
  - now rewrite <- app_assoc.
Qed.

(** X16: the tags of a generated piece contain its style and hold no
    duplicate; an urban keyword is a tag exactly when it is a word of the
    lower-cased prompt or the style itself or a bonus tag; every tag is the
    style, such a keyword, or one of the bonus tags; a "modern" piece
    carries "contemporary", "minimalist" and "clean".  The metadata keywords
    are the same tags. *)
Theorem generated_tags gallery history t_id t_created p_prompt p_style p_user :
  let piece :=
    snd (generate_art strftime str_split str_lower str_title str_capitalize
                 str_len list_set
                      gallery history t_id t_created p_prompt p_style p_user) in
  In p_style (tags piece) /\
  NoDup (tags piece) /\
  (forall word,
      In word urban_keywords ->
      In word (str_split (str_lower p_prompt)) -> In word (tags piece)) /\
  (forall tag,
      In tag (tags piece) ->
      tag = p_style \/
      (In tag urban_keywords /\ In tag (str_split (str_lower p_prompt))) \/
      In tag style_bonus_tags) /\
  (p_style = "modern" ->
   In "contemporary" (tags piece) /\ In "minimalist" (tags piece) /\
   In "clean" (tags piece)) /\
  keywords (metadata piece) = tags piece.
Proof.
  cbv zeta. unfold generate_art. simpl snd. simpl tags. simpl metadata.
  simpl keywords. unfold _generate_tags. cbv zeta.
  set (words := filter (fun word => existsb (String.eqb word) urban_keywords)
                       (str_split (str_lower p_prompt))).
  assert (Hwords : forall w, In w words <->
                             In w (str_split (str_lower p_prompt)) /\
                             In w urban_keywords).
  { intros w. unfold words. rewrite filter_In, existsb_exists. split.
    - intros [Hin (x & Hx & E)]. apply String.eqb_eq in E. now subst.
    - intros [Hin Hk]. split; [exact Hin|]. exists w.
      split; [exact Hk|apply String.eqb_refl]. }
  split; [|split; [|split; [|split; [|split]]]].
  - apply (proj2 (list_set_In _ _)).
    repeat match goal with
           | |- context [String.eqb ?a ?b] => destruct (String.eqb a b)
           end; simpl; now left.
  - apply list_set_NoDup.
  - intros word Hk Hw. apply (proj2 (list_set_In _ _)).
    assert (Hin : In word ([p_style] ++ words)%list).
    { apply in_or_app. right. apply Hwords. now split. }
    repeat match goal with
           | |- context [String.eqb ?a ?b] => destruct (String.eqb a b)
           end; try exact Hin; apply in_or_app; now left.
  - intros tag Htag. apply (proj1 (list_set_In _ _)) in Htag.
    assert (Hbase : In tag ([p_style] ++ words)%list ->
                    tag = p_style \/
                    (In tag urban_keywords /\
                     In tag (str_split (str_lower p_prompt))) \/
                    In tag style_bonus_tags).
    { intros H. apply in_app_or in H. destruct H as [[<-|[]]|H]; [now left|].
      right. left. apply Hwords in H. tauto. }
    repeat match goal with
           | H : context [String.eqb ?a ?b] |- _ => destruct (String.eqb a b)
           end;
      try (apply Hbase; exact Htag);
      apply in_app_or in Htag; destruct Htag as [Htag|Htag];
      try (apply Hbase; exact Htag);
      right; right; unfold style_bonus_tags; simpl in *; tauto.
  - intros ->. cbv beta iota delta [String.eqb Ascii.eqb Bool.eqb].
    repeat split; apply (proj2 (list_set_In _ _)); apply in_or_app; right;
      simpl; tauto.
  - reflexivity.
Qed.

(** X17: [get_style_suggestions] never returns an empty list and never
    repeats a label; every label comes from the twelve the four keyword
    buckets can contribute; when the lower-cased prompt contains none of the
    twelve keywords the suggestions are exactly "modern", "abstract" and
    "contemporary". *)
Theorem get_style_suggestions_shape (p_prompt : string) :
  let suggestions := get_style_suggestions str_lower list_set p_prompt in
  suggestions <> [] /\
  NoDup suggestions /\
  (forall label, In label suggestions -> In label suggestion_vocabulary) /\
  (any_in ["city"; "urban"; "street"; "modern"; "contemporary"; "abstract";
           "nature"; "green"; "eco"; "tech"; "digital"; "cyber"]
          (str_lower p_prompt) = false ->
   forall label,
     In label suggestions <-> In label ["modern"; "abstract"; "contemporary"]).
Proof using str_lower list_set list_set_In list_set_NoDup.
  cbv zeta. unfold get_style_suggestions. cbv zeta.
  split; [|split; [|split]].
  - intros Hnil.
    match type of Hnil with
    | list_set ?l = [] =>
        assert (Hin : exists x, In x l)
    end.
    { repeat match goal with
             | |- context [any_in ?ws ?t] => destruct (any_in ws t)
             end; simpl; eauto. }
    destruct Hin as (x & Hx). apply (proj2 (list_set_In _ _)) in Hx.
    rewrite Hnil in Hx. exact Hx.
  - apply list_set_NoDup.
  - intros label Hl. apply (proj1 (list_set_In _ _)) in Hl.
    unfold suggestion_vocabulary.
    repeat match type of Hl with
           | context [any_in ?ws ?t] => destruct (any_in ws t)
           end; simpl in Hl |- *; clear - Hl; tauto.
  - intros Hnone label.
    unfold any_in in Hnone |- *. simpl existsb in Hnone |- *.
    repeat match type of Hnone with
           | context [str_in ?w ?t] => destruct (str_in w t)
           end; simpl in Hnone; try discriminate Hnone.
    simpl. split; intros H.
    + now apply (proj1 (list_set_In _ _)) in H.
    + now apply (proj2 (list_set_In _ _)).
Qed.

(** X18: [create_collection] keeps, in the requested order, exactly the
    requested ids that are stored in the gallery and drops the others
    without raising; the new collection is private with zero counters and is
    appended after the collections already in the file. *)
Theorem create_collection_keeps_stored_ids gallery file t_id t_created t_updated
        name description0 ids uid :
  let file' :=
    fst (create_collection strftime gallery file t_id t_created t_updated
                           name description0 ids uid) in
  let collection :=
    snd (create_collection strftime gallery file t_id t_created t_updated
                           name description0 ids uid) in
  (forall art_id,
      In art_id (art_ids collection)
      <-> In art_id ids /\ get_art_piece gallery art_id <> None) /\
  (exists dropped,
      Permutation ids (art_ids collection ++ dropped)%list /\
      Forall (fun art_id => get_art_piece gallery art_id = None) dropped) /\
  (Forall (fun art_id => get_art_piece gallery art_id <> None) ids ->
   art_ids collection = ids) /\
  public collection = false /\ c_likes collection = 0%Z /\
  c_views collection = 0%Z /\
  file' = Some (get file [] ++ [collection])%list /\
  subsequence (art_ids collection) ids /\
  art_ids collection
  = filter (fun art_id => match get_art_piece gallery art_id with
                          | Some _ => true
                          | None => false
                          end) ids.
Proof.
  cbv zeta. unfold create_collection, get_art_piece. simpl.
  assert (Hstored : forall art_id,
             stored gallery art_id = true <-> lookup art_id gallery <> None).
  { intros art_id. unfold stored. destruct (lookup art_id gallery);
      split; congruence. }
  assert (Hsub : forall (f : string -> bool) l, subsequence (filter f l) l).
  { intros f l. induction l as [|x l IH]; simpl; [constructor|].
    destruct (f x); now constructor. }
  split; [|split; [|split; [|split; [|split; [|split; [|split; [|split]]]]]]];
    try reflexivity; try apply Hsub.
  - intros art_id. now rewrite filter_In, Hstored.
  - exists (filter (fun art_id => negb (stored gallery art_id)) ids). split.
    + clear Hstored. induction ids as [|x ids IH]; simpl; [reflexivity|].
      destruct (stored gallery x); simpl.
      * now constructor.
      * rewrite IH at 1. apply Permutation_middle.
    + apply Forall_forall. intros x Hx. apply filter_In in Hx.
      destruct Hx as [_ Hx]. unfold stored in Hx.
      now destruct (lookup x gallery).
  - intros Hall. induction Hall as [|x ids Hx _ IH]; simpl; [reflexivity|].
    apply Hstored in Hx. now rewrite Hx, IH.
Qed.

End Generation.

Lemma generate_art_stores_fresh_piece_witness :
  let '(gallery', history', piece) :=
    generate_art seconds_text ascii_split ascii_lower ascii_title
                 ascii_capitalize ascii_len distinct
                 sample_gallery ["art_1"; "art_2"]
                 1767643200000000%Z 1767643200000001%Z
                 "Futuristic City skyline" "modern" None in
  id piece = "art_1767643200" /\
  get_art_piece gallery' "art_1767643200" = Some piece /\
  get_art_piece gallery' "art_1" = get_art_piece sample_gallery "art_1" /\
  history' = ["art_1"; "art_2"; "art_1767643200"].
Proof.
  pose proof (generate_art_stores_fresh_piece seconds_text ascii_split
                ascii_lower ascii_title ascii_capitalize ascii_len distinct
                sample_gallery ["art_1"; "art_2"]
                1767643200000000%Z 1767643200000001%Z
                "Futuristic City skyline" "modern" None) as H.
  destruct (generate_art seconds_text ascii_split ascii_lower ascii_title
              ascii_capitalize ascii_len distinct sample_gallery
              ["art_1"; "art_2"] 1767643200000000%Z 1767643200000001%Z
              "Futuristic City skyline" "modern" None)
    as [[gallery' history'] piece] eqn:E.
  destruct H as (Hid & Hget & _ & _ & _ & _ & _ & _ & _ & _ & Hh & Hother & _).
  assert (Hid' : id piece = "art_1767643200") by (rewrite Hid; reflexivity).
  split; [exact Hid'|].
  split; [rewrite <- Hid'; exact Hget|].
  split; [apply Hother; rewrite Hid'; discriminate|].
  rewrite Hh, Hid'. reflexivity.
Defined.

Lemma generated_tags_witness :
  In "city"
     (tags (snd (generate_art seconds_text ascii_split ascii_lower ascii_title
                              ascii_capitalize ascii_len distinct
                              sample_gallery [] 1767643200000000%Z 1767643200000001%Z
                              "Futuristic City skyline" "modern" None))).
Proof.
  destruct (generated_tags seconds_text ascii_split ascii_lower ascii_title
              ascii_capitalize ascii_len distinct
              (fun l x => nodup_In string_dec l x) (NoDup_nodup string_dec)
              sample_gallery [] 1767643200000000%Z 1767643200000001%Z
              "Futuristic City skyline" "modern" None)
    as (_ & _ & Hkw & _).
  apply Hkw; simpl; tauto.
Defined.

Lemma get_style_suggestions_shape_witness :
  In "modern" (get_style_suggestions ascii_lower distinct "A quiet harbour") /\
  ~ In "graffiti" (get_style_suggestions ascii_lower distinct "A quiet harbour").
Proof.
  destruct (get_style_suggestions_shape ascii_lower distinct
              (fun l x => nodup_In string_dec l x) (NoDup_nodup string_dec)
              "A quiet harbour")
    as (_ & _ & _ & Hdefault).
  specialize (Hdefault eq_refl).
  split.
  - apply Hdefault. simpl. tauto.
  - intros H. apply Hdefault in H. simpl in H.
    repeat (destruct H as [H|H]; [discriminate H|]). exact H.
Defined.

Lemma generate_art_same_second_overwrites_witness :
  let '(g1, h1, p1) :=
    generate_art seconds_text ascii_split ascii_lower ascii_title
                 ascii_capitalize ascii_len distinct
                 [] [] 1767643200000000%Z 1767643200000000%Z
                 "city lights" "modern" None in
  let '(g2, h2, p2) :=
    generate_art seconds_text ascii_split ascii_lower ascii_title
                 ascii_capitalize ascii_len distinct
                 g1 h1 1767643200900000%Z 1767643200900000%Z
                 "green park" "eco_art" None in
  id p2 = id p1 /\
  get_art_piece g2 (id p1) = Some p2 /\
  map fst g2 = map fst g1 /\
  List.length g2 = List.length g1 /\
  h2 = ([] ++ [id p1; id p1])%list.
Proof.
  apply (generate_art_same_second_overwrites seconds_text ascii_split
           ascii_lower ascii_title ascii_capitalize ascii_len distinct
           [] [] 1767643200000000%Z 1767643200000000%Z
           1767643200900000%Z 1767643200900000%Z
           "city lights" "modern" None "green park" "eco_art" None).
  reflexivity.
Defined.

Lemma create_collection_keeps_stored_ids_witness :
  In "art_2"
     (art_ids (snd (create_collection seconds_text sample_gallery None
                      1767643200000000%Z 1767643200000000%Z 1767643200000000%Z
                      "Favourites" "Pieces I like" ["art_2"; "art_7"]
                      "demo_user"))).
Proof.
  destruct (create_collection_keeps_stored_ids seconds_text sample_gallery None
              1767643200000000%Z 1767643200000000%Z 1767643200000000%Z
              "Favourites" "Pieces I like" ["art_2"; "art_7"] "demo_user")
    as (Hin & _).
  apply Hin. split; [simpl; tauto|discriminate].
Defined.

End GeneratorFacts.

(* ================================================================= *)
(** ** The analytics engine: metrics, detectors and tracking *)

Module AnalyticsExtra.

Import Analytics Spec Samples.

(** X19: the engagement score is 5 per engagement event and saturates at
    100: it always lies between 0 and 100, equals five times the number of
    engagement events below twenty of them, and is 100 from twenty on. *)
Theorem engagement_score_saturates events now uid days :
  let window :=
    filter (in_window uid (now - timedelta_days days)%Z) events in
  let n :=
    Z.of_nat (List.length
                (filter (type_in ["video_watch"; "quiz_attempt";
                                  "discussion_post"; "assignment_submit"])
                        window)) in
  let score := engagement_score (calculate_user_metrics events now uid days) in
  (0 <= score <= 100)%Z /\
  ((n < 20)%Z -> score = (5 * n)%Z) /\
  ((20 <= n)%Z -> score = 100%Z).
Proof.
  cbv zeta. unfold calculate_user_metrics. simpl engagement_score.
  unfold _calculate_engagement_score. lia.
Qed.

Lemma engagement_score_saturates_witness :
  engagement_score (calculate_user_metrics module_log sample_now "demo_user" 30)
  = 0%Z.
Proof.
  destruct (engagement_score_saturates module_log sample_now "demo_user" 30)
    as (_ & Hlow & _).
  rewrite Hlow; [reflexivity|]. vm_compute. reflexivity.
Defined.

Lemma filter_app_skip {A} (f : A -> bool) (l1 extra l2 : list A) :
  Forall (fun a => f a = false) extra ->
  filter f (l1 ++ extra ++ l2)%list = filter f (l1 ++ l2)%list.
Proof.
  intros Hall. rewrite !filter_app. f_equal.
  replace (filter f extra) with (@nil A); [reflexivity|].
  symmetry. induction Hall as [|a extra Ha _ IH]; simpl; [reflexivity|].
  now rewrite Ha.
Qed.

(** X20: events of other users, and events older than the window, never
    influence a user's metrics, wherever they sit in the log; events of
    other users never influence the user's insights either. *)
Theorem metrics_ignore_foreign_events before_ extra after_ now uid days :
  (Forall (fun e => user_id e <> uid \/
                    (timestamp e < now - days * 86400000000)%Z) extra ->
   calculate_user_metrics (before_ ++ extra ++ after_)%list now uid days
   = calculate_user_metrics (before_ ++ after_)%list now uid days) /\
  (Forall (fun e => user_id e <> uid) extra ->
   generate_insights (before_ ++ extra ++ after_)%list uid
   = generate_insights (before_ ++ after_)%list uid).
Proof.
  split; intros Hall.
  - unfold calculate_user_metrics.
    rewrite filter_app_skip; [reflexivity|].
    eapply Forall_impl; [|exact Hall].
    intros e He. unfold in_window, timedelta_days, microseconds_per_day.
    destruct He as [He|He].
    + destruct (String.eqb (user_id e) uid) eqn:E; [|reflexivity].
      apply String.eqb_eq in E. contradiction.
    + apply andb_false_iff. right. apply Z.leb_gt. exact He.
  - unfold generate_insights.
    rewrite filter_app_skip; [reflexivity|].
    eapply Forall_impl; [|exact Hall].
    intros e He. destruct (String.eqb (user_id e) uid) eqn:E; [|reflexivity].
    apply String.eqb_eq in E. contradiction.
Qed.

Lemma metrics_ignore_foreign_events_witness :
  calculate_user_metrics (module_log ++ stranger_log ++ quiz_log)%list
                         sample_now "demo_user" 30
  = calculate_user_metrics (module_log ++ quiz_log)%list sample_now "demo_user" 30.
Proof.
  apply (metrics_ignore_foreign_events module_log stranger_log quiz_log
           sample_now "demo_user" 30).
  unfold stranger_log.
  constructor; [left; discriminate|].
  constructor; [left; discriminate|]. constructor.
Defined.

Lemma ratio_above_three_fifths (e t : Z) :
  (0 < t)%Z ->
  Qltb 0.6 (inject_Z e / inject_Z t) = true <-> (3 * t < 5 * e)%Z.
Proof.
  intros Ht. rewrite Qltb_lt.
  destruct t as [|p|p]; try lia.
  unfold Qlt, Qdiv, Qmult, Qinv, inject_Z. cbn [Qnum Qden].
  rewrite ?Pos2Z.inj_mul. lia.
Qed.

(** X21: the night-learner detector fires exactly when more than three
    fifths of the learning events (learning sessions and video watches)
    fall in the hours 19 to 23: 3 * learning < 5 * evening.  With no
    learning event it does not fire; with exactly 60 percent it does not
    fire. *)
Theorem _is_night_learner_threshold (events : list Event) :
  _is_night_learner events = true
  <-> (3 * Z.of_nat (List.length (learning_events events))
       < 5 * Z.of_nat (List.length (evening_events events)))%Z.
Proof.
  unfold _is_night_learner, evening_events, learning_events.
  destruct (filter (type_in ["learning_session"; "video_watch"]) events)
    as [|e rest] eqn:E.
  - simpl. split; [discriminate|lia].
  - unfold len. apply ratio_above_three_fifths. simpl List.length. lia.
Qed.

Lemma _is_night_learner_threshold_witness :
  _is_night_learner evening_log = true /\
  List.length (learning_events evening_log) = 5%nat /\
  List.length (evening_events evening_log) = 4%nat.
Proof.
  split; [|split; reflexivity].
  apply (_is_night_learner_threshold evening_log). vm_compute. reflexivity.
Defined.

Lemma firstn_repeat {A} (c : A) (l : list A) (n : nat) :
  Forall (eq c) l -> (n <= List.length l)%nat -> firstn n l = repeat c n.
Proof.
  intros Hall. revert n. induction Hall as [|x l <- _ IH]; intros [|n] Hn;
    simpl in *; try reflexivity; try lia.
  f_equal. apply IH. lia.
Qed.

Lemma skipn_repeat {A} (c : A) (l : list A) (n : nat) :
  Forall (eq c) l -> skipn n l = repeat c (List.length l - n).
Proof.
  intros Hall. revert n. induction Hall as [|x l <- _ IH]; intros [|n];
    simpl; try reflexivity.
  - f_equal. specialize (IH 0%nat). simpl in IH.
    now rewrite Nat.sub_0_r in IH.
  - apply IH.
Qed.

(** X23: [generate_insights] reports "Improving Performance" only for a
    user with at least three completed quizzes whose scores are not all
    the same: with fewer than three quizzes, or with equal scores on all
    of them, it never does. *)
Theorem improving_needs_three_varied_scores events uid :
  let quiz :=
    filter (has_type "quiz_completed")
           (filter (fun e => String.eqb (user_id e) uid) events) in
  ((List.length quiz < 3)%nat \/
   (exists c, forall e, In e quiz -> data_get "score" e = c)) ->
  ~ In improving_insight (generate_insights events uid).
Proof.
  cbv zeta. intros Hcase.
  assert (Hfalse : _is_improving
                     (filter (fun e => String.eqb (user_id e) uid) events) = false).
  { unfold _is_improving.
    set (quiz := filter (has_type "quiz_completed")
                        (filter (fun e => String.eqb (user_id e) uid) events)) in *.
    destruct (List.length quiz <? 3)%nat eqn:E; [reflexivity|].
    apply Nat.ltb_ge in E.
    destruct Hcase as [Hlt|(c & Hc)]; [lia|].
    assert (Hall : Forall (eq c)
                          (map (data_get "score") (sort_asc timestamp quiz))).
    { apply Forall_forall. intros x Hx. apply in_map_iff in Hx.
      destruct Hx as (e & <- & He). symmetry. apply Hc.
      eapply Permutation_in; [apply stable_sort_perm|exact He]. }
    assert (Hs : List.length (sort_asc timestamp quiz) = List.length quiz).
    { unfold sort_asc. apply stable_sort_length. }
    unfold slice_last. rewrite <- !skipn_map, <- !firstn_map.
    rewrite (firstn_repeat c)
      by (try exact Hall; rewrite length_map, Hs; exact E).
    rewrite (skipn_repeat c) by exact Hall.
    rewrite length_map, !Hs.
    replace (List.length quiz - (List.length quiz - 3))%nat with 3%nat by lia.
    apply Qltb_irrefl. }
  unfold generate_insights. rewrite Hfalse.
  destruct (_is_night_learner _); simpl.
  - intros [H|[]]. discriminate H.
  - tauto.
Qed.

Lemma improving_needs_three_varied_scores_witness :
  ~ In improving_insight (generate_insights module_log "demo_user").
Proof.
  apply (improving_needs_three_varied_scores module_log "demo_user").
  left. simpl. lia.
Defined.

(** X24: [track_event] appends one event, stamped with the second clock
    read, at the end of the log and leaves the earlier events as they
    are; the metrics of its user over any window that reaches back to the
    stamp count one event more than before. *)
Theorem track_event_is_counted strftime events t_id t_stamp event_type uid
        payload now days :
  let log := fst (track_event strftime events t_id t_stamp event_type uid payload) in
  let event := snd (track_event strftime events t_id t_stamp event_type uid payload) in
  log = (events ++ [event])%list /\
  type event = event_type /\ user_id event = uid /\
  timestamp event = t_stamp /\ data event = payload /\
  ((now - days * 86400000000 <= t_stamp)%Z ->
   total_events (calculate_user_metrics log now uid days)
   = S (total_events (calculate_user_metrics events now uid days))) /\
  ((t_stamp < now - days * 86400000000)%Z ->
   calculate_user_metrics log now uid days
   = calculate_user_metrics events now uid days).
Proof.
  cbv zeta. unfold track_event. cbn [fst snd].
  do 5 (split; [reflexivity|]).
  change (days * 86400000000)%Z with (timedelta_days days).
  set (cutoff := (now - timedelta_days days)%Z).
  set (event := {| id := "event_" ++ strftime t_id; type := event_type;
                   user_id := uid; timestamp := t_stamp; data := payload |}).
  assert (Hev : filter (in_window uid cutoff) [event]
                = if (cutoff <=? t_stamp)%Z then [event] else []).
  { simpl. unfold in_window. simpl. now rewrite String.eqb_refl. }
  unfold calculate_user_metrics. fold cutoff.
  rewrite filter_app, Hev.
  split; intros Hw.
  - apply Z.leb_le in Hw. rewrite Hw. simpl total_events.
    rewrite length_app. simpl. lia.
  - apply Z.leb_gt in Hw. rewrite Hw. now rewrite app_nil_r.
Qed.

Lemma track_event_is_counted_witness :
  total_events
    (calculate_user_metrics
       (fst (track_event seconds_text module_log sample_now sample_now
                         "video_watch" "demo_user" [("duration_minutes", 12)]))
       sample_now "demo_user" 30)
  = 3%nat.
Proof.
  destruct (track_event_is_counted seconds_text module_log sample_now sample_now
              "video_watch" "demo_user" [("duration_minutes", 12)] sample_now 30)
    as (_ & _ & _ & _ & _ & Hin & _).
  rewrite Hin; [reflexivity|]. vm_compute. discriminate.
Defined.

End AnalyticsExtra.

(* ================================================================= *)
(** ** The hub connector: answers, hours and fallback sizes *)

Module HubExtra.

Import Hub Samples.

Lemma count_of_bump (h k : Z) (counts : list (Z * Z)) :
  count_of h (bump Z.eqb k counts)
  = (count_of h counts + (if Z.eqb h k then 1 else 0))%Z.
Proof.
  induction counts as [|[k' n] counts IH]; simpl.
  - destruct (Z.eqb h k); lia.
  - destruct (Z.eqb k k') eqn:E; simpl.
    + apply Z.eqb_eq in E. subst k'. destruct (Z.eqb h k); lia.
    + destruct (Z.eqb h k') eqn:E'; [|exact IH].
      apply Z.eqb_eq in E'. subst k'.
      rewrite Z.eqb_sym in E. rewrite E. lia.
Qed.

Lemma keys_bump (k k0 : Z) (counts : list (Z * Z)) :
  In k0 (map fst (bump Z.eqb k counts)) <-> k0 = k \/ In k0 (map fst counts).
Proof.
  induction counts as [|[k' n] counts IH]; simpl.
  - intuition.
  - destruct (Z.eqb k k') eqn:E; simpl.
    + apply Z.eqb_eq in E. subst k'. intuition.
    + rewrite IH. intuition.
Qed.

Lemma NoDup_bump (k : Z) (counts : list (Z * Z)) :
  NoDup (map fst counts) -> NoDup (map fst (bump Z.eqb k counts)).
Proof.
  induction counts as [|[k' n] counts IH]; simpl; intros Hnd.
  - constructor; [intros []|constructor].
  - inversion Hnd as [|? ? Hnotin Hnd']; subst.
    destruct (Z.eqb k k') eqn:E; simpl.
    + now constructor.
    + constructor; [|now apply IH].
      rewrite keys_bump. intros [->|Hin]; [|contradiction].
      rewrite Z.eqb_refl in E. discriminate.
Qed.

Lemma tallies_bump (counts : list (Z * Z)) (hours : list Z) (k : Z) :
  tallies counts hours -> tallies (bump Z.eqb k counts) (hours ++ [k])%list.
Proof.
  intros (Hnd & Hc & Hk). split; [|split].
  - now apply NoDup_bump.
  - intros h. rewrite count_of_bump, Hc. unfold occurrences.
    rewrite count_occ_app. simpl.
    destruct (Z.eq_dec k h) as [->|Hne].
    + rewrite Z.eqb_refl. lia.
    + destruct (Z.eqb h k) eqn:E; [|lia].
      apply Z.eqb_eq in E. congruence.
  - intros k0. rewrite keys_bump, in_app_iff, Hk. simpl. intuition.
Qed.

Lemma tallies_fold (l : list Z) (counts : list (Z * Z)) (hours : list Z) :
  tallies counts hours ->
  tallies (fold_left (fun c h => bump Z.eqb h c) l counts) (hours ++ l)%list.
Proof.
  revert counts hours. induction l as [|h l IH]; intros counts hours Ht; simpl.
  - now rewrite app_nil_r.
  - replace (hours ++ h :: l)%list with ((hours ++ [h]) ++ l)%list
      by (now rewrite <- app_assoc).
    apply IH. now apply tallies_bump.
Qed.

Lemma count_of_item (counts : list (Z * Z)) (k n : Z) :
  NoDup (map fst counts) -> In (k, n) counts -> count_of k counts = n.
Proof.
  induction counts as [|[k' n'] counts IH]; simpl; intros Hnd Hin; [contradiction|].
  inversion Hnd as [|? ? Hnotin Hnd']; subst.
  destruct Hin as [[= -> ->]|Hin].
  - now rewrite Z.eqb_refl.
  - destruct (Z.eqb k k') eqn:E; [|now apply IH].
    apply Z.eqb_eq in E. subst k'. exfalso. apply Hnotin.
    apply in_map_iff. now exists (k, n).
Qed.

Lemma max_item_greatest {K} (best : K * Z) (items : list (K * Z)) :
  In (max_item best items) (best :: items) /\
  forall item, In item (best :: items) ->
               (snd item <= snd (max_item best items))%Z.
Proof.
  revert best. induction items as [|x items IH]; intros best; simpl.
  - split; [now left|]. intros item [<-|[]]. lia.
  - destruct (snd best <? snd x)%Z eqn:E.
    + apply Z.ltb_lt in E. destruct (IH x) as [Hin Hmax]. split.
      * right. exact Hin.
      * intros item [<-|Hitem]; [|now apply Hmax].
        specialize (Hmax x (or_introl eq_refl)). lia.
    + apply Z.ltb_ge in E. destruct (IH best) as [Hin Hmax]. split.
      * destruct Hin as [Hin|Hin]; [now left|right; now right].
      * intros item [<-|[<-|Hitem]].
        -- apply Hmax. now left.
        -- specialize (Hmax best (or_introl eq_refl)). lia.
        -- apply Hmax. now right.
Qed.

Section Hours.

Variable iso_hour : string -> option Z.

Lemma hour_counts_fold (learning_data : list Session) (counts : list (Z * Z)) :
  Forall (readable iso_hour) learning_data ->
  hour_counts iso_hour learning_data counts
  = Ret (fold_left (fun c h => bump Z.eqb h c)
                   (session_hours iso_hour learning_data) counts).
Proof.
  intros Hall. revert counts.
  induction Hall as [|session rest Hr _ IH]; intros counts; [reflexivity|].
  simpl hour_counts. unfold session_hours. simpl flat_map.
  fold (session_hours iso_hour rest).
  destruct (String.eqb (get (timestamp session) "") "") eqn:E; [apply IH|].
  destruct Hr as [Hr|Hr].
  - apply String.eqb_eq in Hr. congruence.
  - destruct (iso_hour (get (timestamp session) "")) as [h|]; [|congruence].
    simpl. apply IH.
Qed.

(** X25: when every timestamp is absent, empty or readable,
    [_find_most_active_hour] returns 14 if no session carries a timestamp,
    and otherwise an hour of some session that no other hour beats in
    number of sessions. *)
Theorem _find_most_active_hour_is_mode (learning_data : list Session) :
  Forall (readable iso_hour) learning_data ->
  exists h,
    _find_most_active_hour iso_hour learning_data = Ret h /\
    (session_hours iso_hour learning_data = [] -> h = 14%Z) /\
    (session_hours iso_hour learning_data <> [] ->
     In h (session_hours iso_hour learning_data) /\
     forall h', (occurrences h' (session_hours iso_hour learning_data)
                 <= occurrences h (session_hours iso_hour learning_data))%Z).
Proof.
  intros Hall. unfold _find_most_active_hour.
  destruct learning_data as [|s rest] eqn:Edata.
  { exists 14%Z. split; [reflexivity|]. split; [reflexivity|].
    intros H. now contradiction H. }
  rewrite <- Edata in *. rewrite hour_counts_fold by exact Hall.
  set (hours := session_hours iso_hour learning_data).
  assert (Ht : tallies (fold_left (fun c h => bump Z.eqb h c) hours []) hours).
  { apply (tallies_fold hours [] []). split; [constructor|].
    split; [reflexivity|]. intros k. reflexivity. }
  destruct Ht as (Hnd & Hc & Hk). simpl bind.
  destruct (fold_left (fun c h => bump Z.eqb h c) hours []) as [|item items]
    eqn:Ecounts.
  - exists 14%Z. split; [reflexivity|]. split; [reflexivity|].
    intros Hne. destruct hours as [|h0 hours']; [now contradiction Hne|].
    exfalso. apply (proj2 (Hk h0)). now left.
  - destruct (max_item_greatest item items) as [Hin Hmax].
    destruct (max_item item items) as [h n] eqn:Em.
    exists h. split; [reflexivity|]. split.
    + intros Hnil. exfalso.
      assert (Hkey : In (fst item) (map fst (item :: items))) by now left.
      apply Hk in Hkey. rewrite Hnil in Hkey. exact Hkey.
    + intros _. split.
      * apply Hk. apply in_map_iff. now exists (h, n).
      * intros h'.
        rewrite <- (Hc h), (count_of_item _ h n Hnd Hin).
        destruct (in_dec Z.eq_dec h' hours) as [Hh'|Hh'].
        -- apply Hk in Hh'. apply in_map_iff in Hh'.
           destruct Hh' as ([k n'] & Hfst & Hitem). simpl in Hfst. subst k.
           rewrite <- (Hc h'), (count_of_item _ h' n' Hnd Hitem).
           apply (Hmax (h', n') Hitem).
        -- unfold occurrences.
           rewrite (proj1 (count_occ_not_In Z.eq_dec hours h') Hh').
           specialize (Hmax (h, n) Hin). simpl in Hmax.
           assert (Hpos : (0 <= count_of h (item :: items))%Z).
           { rewrite Hc. unfold occurrences. lia. }
           rewrite (count_of_item _ h n Hnd Hin) in Hpos. simpl. lia.
Qed.

End Hours.

Lemma hourly_sessions_readable : Forall (readable ascii_iso_hour) hourly_sessions.
Proof.
  unfold hourly_sessions.
  constructor; [right; discriminate|].
  constructor; [right; discriminate|].
  constructor; [left; reflexivity|].
  constructor; [right; discriminate|constructor].
Defined.

Lemma _find_most_active_hour_is_mode_witness :
  _find_most_active_hour ascii_iso_hour hourly_sessions = Ret 20%Z /\
  session_hours ascii_iso_hour hourly_sessions = [20; 9; 20]%Z.
Proof.
  destruct (_find_most_active_hour_is_mode ascii_iso_hour hourly_sessions
              hourly_sessions_readable) as (h & Hret & _).
  split; [|reflexivity].
  rewrite Hret. vm_compute in Hret. symmetry. exact Hret.
Defined.

(** X26: a hub answer is handed on unchecked.  [analyze_learning_pattern]
    and [predict_learning_outcomes] return the decoded body as it is;
    [get_learning_recommendations] and [get_personalized_content] return its
    "recommendations" / "content" entry, or an empty list when the entry is
    missing, and raise AttributeError when the body is not a JSON object. *)
Theorem hub_answer_passed_through (str_title : string -> string)
        (iso_hour : string -> option Z) (body : pyval) :
  (forall student_id learning_data,
      analyze_learning_pattern iso_hour student_id learning_data (Json body)
      = Ret body) /\
  (forall student_profile learning_path,
      predict_learning_outcomes student_profile learning_path (Json body)
      = Ret body) /\
  (forall entries student_profile context student_id content_preferences,
      body = PDict entries ->
      get_learning_recommendations str_title student_profile context (Json body)
      = Ret (get (lookup "recommendations" entries) (PList [])) /\
      get_personalized_content str_title student_id content_preferences (Json body)
      = Ret (get (lookup "content" entries) (PList []))) /\
  ((forall entries, body <> PDict entries) ->
   forall student_profile context student_id content_preferences,
     get_learning_recommendations str_title student_profile context (Json body)
     = Raise "AttributeError" /\
     get_personalized_content str_title student_id content_preferences (Json body)
     = Raise "AttributeError").
Proof.
  split; [reflexivity|]. split; [reflexivity|]. split.
  - intros entries p ctx sid prefs ->. split; reflexivity.
  - intros Hnot p ctx sid prefs.
    destruct body; try (split; reflexivity).
    exfalso. eapply Hnot. reflexivity.
Qed.

Lemma hub_answer_passed_through_witness :
  get_learning_recommendations ascii_title sample_student [] (Json (PList []))
  = Raise "AttributeError" /\
  get_learning_recommendations ascii_title sample_student []
                               (Json (PDict [("status", PStr "ok")]))
  = Ret (PList []).
Proof.
  destruct (hub_answer_passed_through ascii_title ascii_iso_hour (PList []))
    as (_ & _ & _ & Hbad).
  destruct (hub_answer_passed_through ascii_title ascii_iso_hour
              (PDict [("status", PStr "ok")])) as (_ & _ & Hgood & _).
  split.
  - apply (Hbad ltac:(discriminate) sample_student [] "test_student"
                (mkContentPreferences None)).
  - apply (Hgood [("status", PStr "ok")] sample_student [] "test_student"
                 (mkContentPreferences None) eq_refl).
Defined.

(** X27: whatever the sessions hold, the inferred learning style is one of
    "visual", "reading", "kinesthetic" and "auditory". *)
Theorem _infer_learning_style_vocabulary (learning_data : list Session) :
  In (_infer_learning_style learning_data)
     ["visual"; "reading"; "kinesthetic"; "auditory"].
Proof.
  unfold _infer_learning_style.
  destruct learning_data as [|s rest]; [simpl; tauto|].
  generalize (match
                 fold_left
                   (fun counts session =>
                      bump String.eqb (get (content_type session) "unknown") counts)
                   (s :: rest) []
               with
               | [] => "video"
               | item :: rest0 => fst (max_item item rest0)
               end).
  intros most_common. unfold type_mapping. simpl.
  repeat match goal with
         | |- context [String.eqb ?a ?b] => destruct (String.eqb a b)
         end; simpl; tauto.
Qed.

(** X28: the fallback recommendations cover the first three interests and
    carry the profile's skill level (or "beginner") as difficulty; the
    fallback content covers the first five interests, a missing interests
    entry standing for the single interest "general" while an empty list
    yields no item. *)
Theorem fallback_sizes (str_title : string -> string)
        (student_profile : StudentProfile)
        (content_preferences : ContentPreferences) :
  List.length (_generate_fallback_recommendations str_title student_profile)
  = Nat.min 3 (List.length (get (sp_interests student_profile) [])) /\
  Forall (fun d => lookup "difficulty" d
                   = Some (PStr (get (sp_skill_level student_profile) "beginner")))
         (_generate_fallback_recommendations str_title student_profile) /\
  (cp_interests content_preferences = None ->
   _generate_fallback_content str_title content_preferences
   = [fallback_content str_title "general"]) /\
  (forall interests,
      cp_interests content_preferences = Some interests ->
      List.length (_generate_fallback_content str_title content_preferences)
      = Nat.min 5 (List.length interests)) /\
  map (lookup "title") (_generate_fallback_recommendations str_title student_profile)
  = map (fun interest =>
           Some (PStr ("Advanced " ++ str_title interest ++ " Course")))
        (firstn 3 (get (sp_interests student_profile) [])) /\
  map (lookup "description")
      (_generate_fallback_recommendations str_title student_profile)
  = map (fun interest => Some (PStr ("Learn advanced " ++ interest ++ " concepts")))
        (firstn 3 (get (sp_interests student_profile) [])) /\
  map (lookup "title") (_generate_fallback_content str_title content_preferences)
  = map (fun interest => Some (PStr ("Introduction to " ++ str_title interest)))
        (firstn 5 (get (cp_interests content_preferences) ["general"])) /\
  map (lookup "description")
      (_generate_fallback_content str_title content_preferences)
  = map (fun interest => Some (PStr ("Learn the fundamentals of " ++ interest)))
        (firstn 5 (get (cp_interests content_preferences) ["general"])).
Proof.
  unfold _generate_fallback_recommendations, _generate_fallback_content.
  split; [now rewrite length_map, length_firstn|].
  split; [|split; [|split]].
  - apply Forall_forall. intros d Hd. apply in_map_iff in Hd.
    destruct Hd as (interest & <- & _). reflexivity.
  - intros ->. reflexivity.
  - intros interests ->. simpl get. now rewrite length_map, length_firstn.
  - repeat split; rewrite map_map; apply map_ext; intros interest; reflexivity.
Qed.

Lemma fallback_sizes_witness :
  _generate_fallback_content ascii_title (mkContentPreferences None)
  = [fallback_content ascii_title "general"] /\
  List.length (_generate_fallback_content ascii_title (mkContentPreferences (Some [])))
  = 0%nat.
Proof.
  destruct (fallback_sizes ascii_title sample_student (mkContentPreferences None))
    as (_ & _ & Hnone & _).
  destruct (fallback_sizes ascii_title sample_student
              (mkContentPreferences (Some []))) as (_ & _ & _ & Hsome & _).
  split; [apply Hnone; reflexivity|apply (Hsome [] eq_refl)].
Defined.

End HubExtra.

(* ================================================================= *)
(** ** The assessment engine *)

Module AssessmentFacts.

Import Assessment Samples.

Lemma fraction_between (c t : nat) :
  (c <= t)%nat -> (0 < t)%nat ->
  0 <= inject_Z (Z.of_nat c) / inject_Z (Z.of_nat t) <= 1.
Proof.
  intros Hc Ht.
  assert (Hpos : 0 < inject_Z (Z.of_nat t)).
  { change 0 with (inject_Z 0). rewrite <- Zlt_Qlt. lia. }
  split.
  - apply Qle_shift_div_l; [exact Hpos|].
    rewrite Qmult_0_l. change 0 with (inject_Z 0). rewrite <- Zle_Qle. lia.
  - apply Qle_shift_div_r; [exact Hpos|].
    rewrite Qmult_1_l. rewrite <- Zle_Qle. lia.
Qed.

Lemma _calculate_score_between (submission : Submission)
      (assessment : AssessmentRecord) :
  0 <= max_score assessment ->
  0 <= _calculate_score submission assessment <= max_score assessment.
Proof.
  intros Hmax. unfold _calculate_score.
  destruct (0 <? List.length (questions assessment))%nat eqn:E.
  - apply Nat.ltb_lt in E.
    destruct (fraction_between
                (List.length (filter (is_correct (get (answers submission) []))
                                     (questions assessment)))
                (List.length (questions assessment))
                (filter_length_le _ _) E) as [H0 H1].
    split.
    + now apply Qmult_le_0_compat.
    + rewrite <- (Qmult_1_l (max_score assessment)) at 2.
      now apply Qmult_le_compat_r.
  - split; [apply Qle_refl|exact Hmax].
Qed.

(** X29: for a stored assessment whose [max_score] is not zero,
    [evaluate_submission] returns an evaluation and stores it under
    "<assessment id>_<student id>"; [passed] holds exactly when the score
    reaches the passing score; with a [max_score] that is not negative the
    score lies between 0 and [max_score], and it is 0 for an assessment
    without questions. *)
Theorem evaluate_submission_result assessments submissions now aid sid
        submission assessment :
  lookup aid assessments = Some assessment ->
  ~ max_score assessment == 0 ->
  exists submissions' evaluation,
    evaluate_submission assessments submissions now aid sid submission
      = Ret (submissions', evaluation) /\
    lookup (aid ++ "_" ++ sid) submissions' = Some evaluation /\
    (forall other, other <> (aid ++ "_" ++ sid)%string ->
                   lookup other submissions' = lookup other submissions) /\
    score evaluation = _calculate_score submission assessment /\
    (passed evaluation = true <-> passing_score assessment <= score evaluation) /\
    (0 <= max_score assessment ->
     0 <= score evaluation <= max_score assessment) /\
    (questions assessment = [] -> score evaluation = 0).
Proof.
  intros Hl Hmax. unfold evaluate_submission. rewrite Hl.
  unfold _generate_feedback.
  destruct (Qeq_bool (max_score assessment) 0) eqn:E.
  { apply Qeq_bool_iff in E. contradiction. }
  match goal with
  | |- context [bind ?m _] =>
      assert (Hfb : exists text, m = Ret text)
  end.
  { repeat match goal with
           | |- context [Qle_bool ?a ?b] => destruct (Qle_bool a b)
           end; eauto. }
  destruct Hfb as (text & ->). simpl bind.
  eexists _, _. split; [reflexivity|].
  split; [apply lookup_assign_same|].
  split; [intros other Ho; now apply lookup_assign_other|].
  split; [reflexivity|]. simpl score. simpl passed.
  split; [apply Qle_bool_iff|].
  split; [apply _calculate_score_between|].
  intros Hq. unfold _calculate_score. now rewrite Hq.
Qed.

Lemma evaluate_submission_result_witness :
  exists submissions' evaluation,
    evaluate_submission sample_assessments [] 5%Z "quiz_1" "test_student" half_right
      = Ret (submissions', evaluation) /\
    score evaluation == 50 /\
    passed evaluation = false.
Proof.
  destruct (evaluate_submission_result sample_assessments [] 5%Z "quiz_1"
              "test_student" half_right sample_quiz eq_refl ltac:(discriminate))
    as (subs' & ev & Hret & _ & _ & Hscore & _).
  exists subs', ev. split; [exact Hret|].
  vm_compute in Hret. injection Hret as _ <-. split; reflexivity.
Defined.

(** X30: [evaluate_submission] raises "Assessment <id> not found" for an
    id that is not stored, and raises ZeroDivisionError, whatever the
    submission, for a stored assessment whose [max_score] is zero; in both
    cases nothing is stored. *)
Theorem evaluate_submission_errors assessments submissions now aid sid submission :
  (lookup aid assessments = None ->
   evaluate_submission assessments submissions now aid sid submission
   = Raise ("Assessment " ++ aid ++ " not found")) /\
  (forall assessment,
      lookup aid assessments = Some assessment ->
      max_score assessment == 0 ->
      evaluate_submission assessments submissions now aid sid submission
      = Raise "ZeroDivisionError").
Proof.
  unfold evaluate_submission. split.
  - intros ->. reflexivity.
  - intros assessment -> Hzero. unfold _generate_feedback.
    apply Qeq_bool_iff in Hzero. now rewrite Hzero.
Qed.

Lemma evaluate_submission_errors_witness :
  evaluate_submission sample_assessments [] 5%Z "quiz_0" "test_student" half_right
  = Raise "ZeroDivisionError" /\
  evaluate_submission sample_assessments [] 5%Z "quiz_9" "test_student" half_right
  = Raise "Assessment quiz_9 not found".
Proof.
  destruct (evaluate_submission_errors sample_assessments [] 5%Z "quiz_0"
              "test_student" half_right) as (_ & Hzero).
  destruct (evaluate_submission_errors sample_assessments [] 5%Z "quiz_9"
              "test_student" half_right) as (Hnone & _).
  split.
  - apply (Hzero pointless_quiz eq_refl). reflexivity.
  - apply Hnone. reflexivity.
Defined.

End AssessmentFacts.
